(** * Sentiment-Text-Analyzer: the cache-aside request pipeline

    A shallow embedding of [src/main.py], [src/cache.py], [src/services.py],
    [src/models.py] and [src/exceptions.py], and the properties of the
    pipeline that the specification states.

    Conventions.
    - A Python [str] is the list of its code points ([pystr]); [bytes] is a
      list of integers in [0, 256).
    - A Python value that travels through [json] or [**kwargs] is a [value].
    - A [float] is a rational or one of the IEEE specials ([pyfloat]); the
      code only compares floats with [0.0] and [1.0] and subtracts clock
      readings, so binary rounding is not modelled.
    - Effects (Redis commands, the language-model call, the clock) are
      operations of an environment [Env] over a world [W]; the code runs in
      a state-and-exception monad [M] that also records a trace of calls. *)

From Stdlib Require Import ZArith QArith List String Ascii Bool Lia.
Import ListNotations.

Local Open Scope Z_scope.

Set Warnings "-register-all".

(* ================================================================= *)
(** ** Python strings *)

(** A Python [str]: the sequence of its code points. *)
Definition pystr := list Z.

(** An ASCII literal as a Python [str]. *)
Definition py (s : string) : pystr :=
  map (fun a => Z.of_nat (nat_of_ascii a)) (list_ascii_of_string s).

Fixpoint str_eqb (a b : pystr) : bool :=
  match a, b with
  | [], [] => true
  | x :: a', y :: b' => (x =? y) && str_eqb a' b'
  | _, _ => false
  end.

(** [bool(s)] for a [str]. *)
Definition str_truthy (s : pystr) : bool :=
  match s with [] => false | _ => true end.

(** A code point that is not one half of a surrogate pair. *)
Definition scalar (c : Z) : bool :=
  (0 <=? c) && (c <? 0x110000) && negb ((0xD800 <=? c) && (c <=? 0xDFFF)).

(** One code point under [str.encode('utf-8')]; [None] where CPython
    raises [UnicodeEncodeError] (a lone surrogate). *)
Definition utf8_char (c : Z) : option (list Z) :=
  if negb (scalar c) then None
  else if c <? 0x80 then Some [c]
  else if c <? 0x800 then
    Some [Z.lor 0xC0 (Z.shiftr c 6); Z.lor 0x80 (Z.land c 0x3F)]
  else if c <? 0x10000 then
    Some [Z.lor 0xE0 (Z.shiftr c 12);
          Z.lor 0x80 (Z.land (Z.shiftr c 6) 0x3F);
          Z.lor 0x80 (Z.land c 0x3F)]
  else
    Some [Z.lor 0xF0 (Z.shiftr c 18);
          Z.lor 0x80 (Z.land (Z.shiftr c 12) 0x3F);
          Z.lor 0x80 (Z.land (Z.shiftr c 6) 0x3F);
          Z.lor 0x80 (Z.land c 0x3F)].

(** [text.encode('utf-8')]. *)
Fixpoint encode_utf8 (s : pystr) : option (list Z) :=
  match s with
  | [] => Some []
  | c :: s' =>
      match utf8_char c, encode_utf8 s' with
      | Some bs, Some rest => Some (bs ++ rest)
      | _, _ => None
      end
  end.




(* ================================================================= *)
(** ** [hashlib.md5]: the MD5 digest of RFC 1321 *)

Module Md5.

Definition w32 (x : Z) : Z := x mod 2 ^ 32.

Definition rotl (x n : Z) : Z :=
  w32 (Z.lor (Z.shiftl x n) (Z.shiftr x (32 - n))).

Definition lnot32 (x : Z) : Z := Z.lxor x 0xFFFFFFFF.

Definition K : list Z :=
  [ 0xd76aa478; 0xe8c7b756; 0x242070db; 0xc1bdceee;
    0xf57c0faf; 0x4787c62a; 0xa8304613; 0xfd469501;
    0x698098d8; 0x8b44f7af; 0xffff5bb1; 0x895cd7be;
    0x6b901122; 0xfd987193; 0xa679438e; 0x49b40821;
    0xf61e2562; 0xc040b340; 0x265e5a51; 0xe9b6c7aa;
    0xd62f105d; 0x02441453; 0xd8a1e681; 0xe7d3fbc8;
    0x21e1cde6; 0xc33707d6; 0xf4d50d87; 0x455a14ed;
    0xa9e3e905; 0xfcefa3f8; 0x676f02d9; 0x8d2a4c8a;
    0xfffa3942; 0x8771f681; 0x6d9d6122; 0xfde5380c;
    0xa4beea44; 0x4bdecfa9; 0xf6bb4b60; 0xbebfbc70;
    0x289b7ec6; 0xeaa127fa; 0xd4ef3085; 0x04881d05;
    0xd9d4d039; 0xe6db99e5; 0x1fa27cf8; 0xc4ac5665;
    0xf4292244; 0x432aff97; 0xab9423a7; 0xfc93a039;
    0x655b59c3; 0x8f0ccc92; 0xffeff47d; 0x85845dd1;
    0x6fa87e4f; 0xfe2ce6e0; 0xa3014314; 0x4e0811a1;
    0xf7537e82; 0xbd3af235; 0x2ad7d2bb; 0xeb86d391 ].

Definition S : list Z :=
  [ 7; 12; 17; 22; 7; 12; 17; 22; 7; 12; 17; 22; 7; 12; 17; 22;
    5;  9; 14; 20; 5;  9; 14; 20; 5;  9; 14; 20; 5;  9; 14; 20;
    4; 11; 16; 23; 4; 11; 16; 23; 4; 11; 16; 23; 4; 11; 16; 23;
    6; 10; 15; 21; 6; 10; 15; 21; 6; 10; 15; 21; 6; 10; 15; 21 ].

Definition regs := (Z * Z * Z * Z)%type.

Definition init : regs := (0x67452301, 0xefcdab89, 0x98badcfe, 0x10325476).

(** One of the 64 operations of a block; [M] is the block as 16 words. *)
Definition step (M : list Z) (r : regs) (i : Z) : regs :=
  let '(a, b, c, d) := r in
  let '(f, g) :=
    if i <? 16 then (Z.lor (Z.land b c) (Z.land (lnot32 b) d), i)
    else if i <? 32 then
      (Z.lor (Z.land d b) (Z.land (lnot32 d) c), (5 * i + 1) mod 16)
    else if i <? 48 then (Z.lxor (Z.lxor b c) d, (3 * i + 5) mod 16)
    else (Z.lxor c (Z.lor b (lnot32 d)), (7 * i) mod 16) in
  let f' := w32 (f + a + nth (Z.to_nat i) K 0 + nth (Z.to_nat g) M 0) in
  (d, w32 (b + rotl f' (nth (Z.to_nat i) S 0)), b, c).

Definition rounds : list Z := map Z.of_nat (seq 0 64).

(** A little-endian 32-bit word from four bytes. *)
Definition word_le (b0 b1 b2 b3 : Z) : Z :=
  b0 + Z.shiftl b1 8 + Z.shiftl b2 16 + Z.shiftl b3 24.

Fixpoint words (n : nat) (bs : list Z) : list Z :=
  match n, bs with
  | Datatypes.S n', b0 :: b1 :: b2 :: b3 :: rest =>
      word_le b0 b1 b2 b3 :: words n' rest
  | _, _ => []
  end.

Definition block (r : regs) (blk : list Z) : regs :=
  let '(a0, b0, c0, d0) := r in
  let '(a, b, c, d) := fold_left (step (words 16 blk)) rounds r in
  (w32 (a0 + a), w32 (b0 + b), w32 (c0 + c), w32 (d0 + d)).

(** The bytes [0 .. 7] of [n], least significant first. *)
Definition bytes_le (k : nat) (n : Z) : list Z :=
  map (fun i => Z.land (Z.shiftr n (8 * Z.of_nat i)) 0xFF) (seq 0 k).

(** Padding: a [0x80] byte, zeros up to 56 modulo 64, the bit length. *)
Definition pad (msg : list Z) : list Z :=
  let len := Z.of_nat (List.length msg) in
  let zeros := Z.to_nat ((55 - len) mod 64) in
  msg ++ [0x80] ++ repeat 0 zeros ++ bytes_le 8 ((8 * len) mod 2 ^ 64).

Fixpoint blocks (n : nat) (r : regs) (bs : list Z) : regs :=
  match n with
  | O => r
  | Datatypes.S n' => blocks n' (block r (firstn 64 bs)) (skipn 64 bs)
  end.

(** [hashlib.md5(msg).digest()]: sixteen bytes. *)
Definition digest (msg : list Z) : list Z :=
  let p := pad msg in
  let '(a, b, c, d) := blocks (List.length p / 64) init p in
  bytes_le 4 a ++ bytes_le 4 b ++ bytes_le 4 c ++ bytes_le 4 d.

Definition hex_digit (n : Z) : Z :=
  if n <? 10 then 48 + n else 87 + n.

(** [.hexdigest()]: two lower-case hexadecimal digits per byte. *)
Definition hexdigest (msg : list Z) : pystr :=
  flat_map (fun b => [hex_digit (Z.shiftr b 4); hex_digit (Z.land b 0xF)])
           (digest msg).

End Md5.

(* ================================================================= *)
(** ** Python values, exceptions and results *)

(** A Python [float]: the code compares it with [0.0] and [1.0] and
    subtracts clock readings, nothing else. *)
Inductive pyfloat : Type :=
| Fin (q : Q)
| PosInf
| NegInf
| NaN.

(** [x <= y] on floats: false as soon as a NaN is involved. *)
Definition float_le (x y : pyfloat) : bool :=
  match x, y with
  | NaN, _ | _, NaN => false
  | NegInf, _ | _, PosInf => true
  | Fin a, Fin b => Qle_bool a b
  | _, _ => false
  end.

Definition float_zero (x : pyfloat) : bool :=
  match x with Fin q => Qeq_bool q 0 | _ => false end.

(** The Python values the program passes around: what [json.loads]
    returns, what a dict literal holds, and [datetime] objects. *)
Inductive value : Type :=
| VNone
| VBool (b : bool)
| VNum (x : pyfloat)
| VStr (s : pystr)
| VList (l : list value)
| VDict (d : list (pystr * value))
| VDatetime (t : Q).

(** A dict, in insertion order; keys are unique in every dict the program
    builds, and a lookup takes the first binding. *)
Definition dict := list (pystr * value).

Fixpoint dict_get (k : pystr) (d : dict) : option value :=
  match d with
  | [] => None
  | (k', v) :: d' => if str_eqb k k' then Some v else dict_get k d'
  end.

Definition dict_has (k : pystr) (d : dict) : bool :=
  match dict_get k d with Some _ => true | None => false end.

(** [bool(v)]: what [if v:] tests. *)
Definition truthy (v : value) : bool :=
  match v with
  | VNone => false
  | VBool b => b
  | VNum x => negb (float_zero x)
  | VStr s => str_truthy s
  | VList l => match l with [] => false | _ => true end
  | VDict d => match d with [] => false | _ => true end
  | VDatetime _ => true
  end.

(** One entry of pydantic's [ValidationError.errors()]: the field and the
    error type. *)
Record verror : Type := { loc : pystr; kind : pystr }.

Definition verror_value (e : verror) : value :=
  VDict [(py "type", VStr (kind e)); (py "loc", VList [VStr (loc e)])].

(** The exception classes that occur, all subclasses of [Exception].
    On the Python versions that have [StrEnum], [asyncio.TimeoutError] is
    the builtin [TimeoutError]. *)
Inductive exn : Type :=
| OutputParserException (msg : pystr)
| TimeoutError (msg : pystr)
| ValidationError (errors : list verror)
| SentimentAnalysisError (message : pystr) (details : dict)
| UnicodeEncodeError (msg : pystr)
| TypeError (msg : pystr)
| OtherError (msg : pystr).

(** [str(exc)]; pydantic's multi-line rendering of a [ValidationError] is
    kept as its summary line. *)
Definition exn_str (e : exn) : pystr :=
  match e with
  | OutputParserException m | TimeoutError m | UnicodeEncodeError m
  | TypeError m | OtherError m => m
  | SentimentAnalysisError m _ => m
  | ValidationError errs => py "validation error"
  end.

Inductive result (A : Type) : Type :=
| Ok (a : A)
| Raise (e : exn).

Arguments Ok {A} a.
Arguments Raise {A} e.

(** [SentimentAnalysisError(message, details)]: [self.details = details or {}]. *)
Definition SentimentAnalysisError_init (message : pystr) (details : dict) : exn :=
  SentimentAnalysisError message (if truthy (VDict details) then details else []).

(** The library functions the program calls and this repository does not
    define: Python's [json] module, langchain's [JsonOutputParser] and the
    parsing of a numeric string by pydantic. *)
Class Lib : Type := {
  (** [json.dumps(value, default=str)] *)
  json_dumps : value -> pystr;
  (** [json.loads(data)]; [None] is [JSONDecodeError] *)
  json_loads : pystr -> option value;
  (** [JsonOutputParser] on the raw reply; [None] is [OutputParserException] *)
  parse_json : pystr -> option value;
  (** a numeric string as a float, in pydantic's lax mode *)
  str_to_float : pystr -> option pyfloat
}.

(* ================================================================= *)
(** ** [src/models.py] *)

Module Models.

Inductive SentimentLabel : Type := POSITIVE | NEGATIVE | NEUTRAL | MIXED.

(** The value of a member of the [StrEnum]. *)
Definition label_value (l : SentimentLabel) : pystr :=
  match l with
  | POSITIVE => py "positive"
  | NEGATIVE => py "negative"
  | NEUTRAL => py "neutral"
  | MIXED => py "mixed"
  end.

(** Validation of an enum field: the member with exactly that value. *)
Definition label_of_value (s : pystr) : option SentimentLabel :=
  if str_eqb s (py "positive") then Some POSITIVE
  else if str_eqb s (py "negative") then Some NEGATIVE
  else if str_eqb s (py "neutral") then Some NEUTRAL
  else if str_eqb s (py "mixed") then Some MIXED
  else None.

Record SentimentResult : Type := {
  label : SentimentLabel;
  confidence : pyfloat;
  explanation : option pystr
}.

Record AnalysisResponse : Type := {
  text : pystr;
  sentiment : SentimentResult;
  cached : bool;
  processing_time : option pyfloat;
  model_used : option pystr;
  timestamp : Q
}.

(** [Field(..., ge=0.0, le=1.0)] *)
Definition confidence_in_range (x : pyfloat) : bool :=
  float_le (Fin 0) x && float_le x (Fin 1).

(** The outcome of validating one field: its value, or the errors. *)
Definition fieldv (A : Type) : Type := (list verror + A)%type.

Definition field_errors {A : Type} (f : fieldv A) : list verror :=
  match f with inl es => es | inr _ => [] end.

Definition err {A : Type} (field kind : string) : fieldv A :=
  inl [{| loc := py field; kind := py kind |}].

(** [str] field, required. *)
Definition validate_str (field : string) (v : option value) : fieldv pystr :=
  match v with
  | None => err field "missing"
  | Some (VStr s) => inr s
  | Some _ => err field "string_type"
  end.

(** [str | None = None] field. *)
Definition validate_opt_str (field : string) (v : option value)
  : fieldv (option pystr) :=
  match v with
  | None | Some VNone => inr None
  | Some (VStr s) => inr (Some s)
  | Some _ => err field "string_type"
  end.

(** [bool] field; the program only ever passes a [bool]. *)
Definition validate_bool (field : string) (v : option value) : fieldv bool :=
  match v with
  | None => err field "missing"
  | Some (VBool b) => inr b
  | Some _ => err field "bool_type"
  end.

(** [datetime] field, required. *)
Definition validate_datetime (field : string) (v : option value) : fieldv Q :=
  match v with
  | None => err field "missing"
  | Some (VDatetime t) => inr t
  | Some _ => err field "datetime_type"
  end.

(** [label: SentimentLabel] *)
Definition validate_label (v : option value) : fieldv SentimentLabel :=
  match v with
  | None => err "label" "missing"
  | Some (VStr s) =>
      match label_of_value s with
      | Some l => inr l
      | None => err "label" "enum"
      end
  | Some _ => err "label" "enum"
  end.

Section WithLib.
Context {L : Lib}.

(** A float in pydantic's lax mode: a number, a bool (as 1.0 or 0.0), or
    a numeric string. *)
Definition lax_float (v : value) : option pyfloat :=
  match v with
  | VNum x => Some x
  | VBool b => Some (Fin (if b then 1 else 0))
  | VStr s => str_to_float s
  | _ => None
  end.

(** The error for a value that is no float: a string that does not parse,
    or a value of another type. *)
Definition float_error (v : value) : string :=
  match v with VStr _ => "float_parsing" | _ => "float_type" end.

(** [float | None = None] field. *)
Definition validate_opt_float (field : string) (v : option value)
  : fieldv (option pyfloat) :=
  match v with
  | None | Some VNone => inr None
  | Some x =>
      match lax_float x with
      | Some f => inr (Some f)
      | None => err field (float_error x)
      end
  end.

(** [confidence: float = Field(..., ge=0.0, le=1.0)] *)
Definition validate_confidence (v : option value) : fieldv pyfloat :=
  match v with
  | None => err "confidence" "missing"
  | Some x =>
      match lax_float x with
      | None => err "confidence" (float_error x)
      | Some f =>
          if negb (float_le f (Fin 1)) then err "confidence" "less_than_equal"
          else if negb (float_le (Fin 0) f) then err "confidence" "greater_than_equal"
          else inr f
      end
  end.

(** The fields of a [SentimentResult] from a dict. *)
Definition SentimentResult_fields (d : dict) : fieldv SentimentResult :=
  let l := validate_label (dict_get (py "label") d) in
  let c := validate_confidence (dict_get (py "confidence") d) in
  let e := validate_opt_str "explanation" (dict_get (py "explanation") d) in
  match l, c, e with
  | inr l', inr c', inr e' =>
      inr {| label := l'; confidence := c'; explanation := e' |}
  | _, _, _ => inl (field_errors l ++ field_errors c ++ field_errors e)
  end.

(** [SentimentResult.model_validate(obj)] *)
Definition SentimentResult_validate (obj : value) : fieldv SentimentResult :=
  match obj with
  | VDict d => SentimentResult_fields d
  | _ => err "" "model_type"
  end.

Definition model_validate (obj : value) : result SentimentResult :=
  match SentimentResult_validate obj with
  | inr r => Ok r
  | inl es => Raise (ValidationError es)
  end.

(** [AnalysisResponse] called with the keyword arguments [kwargs]. *)
Definition AnalysisResponse_init (kwargs : dict) : result AnalysisResponse :=
  let t := validate_str "text" (dict_get (py "text") kwargs) in
  let s := match dict_get (py "sentiment") kwargs with
           | None => err "sentiment" "missing"
           | Some v => SentimentResult_validate v
           end in
  let c := match dict_get (py "cached") kwargs with
           | None => inr false
           | v => validate_bool "cached" v
           end in
  let p := validate_opt_float "processing_time"
             (dict_get (py "processing_time") kwargs) in
  let m := validate_opt_str "model_used" (dict_get (py "model_used") kwargs) in
  let ts := validate_datetime "timestamp" (dict_get (py "timestamp") kwargs) in
  match t, s, c, p, m, ts with
  | inr t', inr s', inr c', inr p', inr m', inr ts' =>
      Ok {| text := t'; sentiment := s'; cached := c'; processing_time := p';
            model_used := m'; timestamp := ts' |}
  | _, _, _, _, _, _ =>
      Raise (ValidationError
               (field_errors t ++ field_errors s ++ field_errors c ++
                field_errors p ++ field_errors m ++ field_errors ts))
  end.

End WithLib.

(** [result.model_dump()] *)
Definition model_dump (r : SentimentResult) : value :=
  VDict [ (py "label", VStr (label_value (label r)));
          (py "confidence", VNum (confidence r));
          (py "explanation",
            match explanation r with Some s => VStr s | None => VNone end) ].

End Models.

(* ================================================================= *)
(** ** Effects: the environment, the trace and the monad *)

(** What the program does to the outside, in the order it does it: the
    commands sent to Redis, the calls of the language model, and the calls
    of the two collaborators of the request pipeline. *)
Inductive event : Type :=
| RedisGet (key : pystr)
| RedisSetex (key : pystr) (ttl : Z) (data : pystr)
| RedisDelete (key : pystr)
| RedisPing
| RedisFlushdb
| LlmInvoke (text : pystr)
| CallCacheGet (key : pystr)
| CallCacheSet (key : pystr) (v : value)
| CallAnalyze (text : pystr).

Definition is_redis_io (e : event) : bool :=
  match e with
  | RedisGet _ | RedisSetex _ _ _ | RedisDelete _ | RedisPing | RedisFlushdb => true
  | _ => false
  end.

Definition is_backend (e : event) : bool :=
  match e with LlmInvoke _ | CallAnalyze _ => true | _ => false end.

Definition is_llm (e : event) : bool :=
  match e with LlmInvoke _ => true | _ => false end.

Definition is_setex (e : event) : bool :=
  match e with RedisSetex _ _ _ => true | _ => false end.

Definition is_cache_write (e : event) : bool :=
  match e with CallCacheSet _ _ | RedisSetex _ _ _ => true | _ => false end.

Definition is_cache_set (e : event) : bool :=
  match e with CallCacheSet _ _ => true | _ => false end.

Definition is_analyze (e : event) : bool :=
  match e with CallAnalyze _ => true | _ => false end.

Definition count (p : event -> bool) (tr : list event) : nat :=
  List.length (filter p tr).

(** The outside world: the Redis client ([redis.asyncio]), the chain
    [prompt | llm] of langchain, and the clock.  Each operation takes the
    world and returns its answer with the world after it. *)
Class Env (W : Type) : Type := {
  (** [GET key]: the stored string, or [None] for a nil reply *)
  redis_get : pystr -> W -> result (option pystr) * W;
  (** [SETEX key seconds value] *)
  redis_setex : pystr -> Z -> pystr -> W -> result unit * W;
  (** [DEL key]: the number of keys removed *)
  redis_delete : pystr -> W -> result Z * W;
  redis_ping : W -> result unit * W;
  redis_flushdb : W -> result unit * W;
  (** the model's raw reply to the prompt for a text, or the exception it
      ended with, and the seconds the call took *)
  llm_ainvoke : pystr -> W -> (result pystr * Q) * W;
  (** the world in which the call for a text, started in the given world,
      has been abandoned after that many seconds *)
  llm_cancel : pystr -> Z -> W -> W;
  (** [time.time()] *)
  time_time : W -> Q * W;
  (** [datetime.now()] *)
  datetime_now : W -> Q * W
}.

Record State (W : Type) : Type := { world : W; trace : list event }.

Arguments world {W} s.
Arguments trace {W} s.

(** A computation: from a state to a value or a raised exception, and the
    state after it. *)
Definition M (W A : Type) : Type := State W -> result A * State W.

Section Monad.
Context {W : Type}.

Definition ret {A : Type} (a : A) : M W A := fun s => (Ok a, s).

Definition raise {A : Type} (e : exn) : M W A := fun s => (Raise e, s).

Definition bind {A B : Type} (m : M W A) (k : A -> M W B) : M W B :=
  fun s =>
    match m s with
    | (Ok a, s') => k a s'
    | (Raise e, s') => (Raise e, s')
    end.

(** [try: m  except Exception as exc: h exc] *)
Definition try_except {A : Type} (m : M W A) (h : exn -> M W A) : M W A :=
  fun s =>
    match m s with
    | (Ok a, s') => (Ok a, s')
    | (Raise e, s') => h e s'
    end.

Definition lift {A : Type} (r : result A) : M W A := fun s => (r, s).

Definition emit (e : event) : M W unit :=
  fun s => (Ok tt, {| world := world s; trace := trace s ++ [e] |}).

(** An operation of the environment, with the event that records it. *)
Definition io {A : Type} (e : event) (op : W -> result A * W) : M W A :=
  fun s =>
    let '(r, w) := op (world s) in
    (r, {| world := w; trace := trace s ++ [e] |}).

(** A clock reading: no event. *)
Definition clock (op : W -> Q * W) : M W Q :=
  fun s => let '(t, w) := op (world s) in (Ok t, {| world := w; trace := trace s |}).

End Monad.

Declare Scope monad_scope.
Delimit Scope monad_scope with monad.
Notation "x <- m ;; k" := (bind m (fun x => k))
  (at level 61, m at next level, right associativity) : monad_scope.
Notation "m ;; k" := (bind m (fun _ => k))
  (at level 61, right associativity) : monad_scope.
Local Open Scope monad_scope.

(* ================================================================= *)
(** ** [src/cache.py] *)

Module Cache.

(** A [RedisCache]; its [redis] client is the environment. *)
Record RedisCache : Type := { ttl : Z; cache_enabled : bool }.

(** [ttl or self.ttl] *)
Definition ttl_or (t : option Z) (default : Z) : Z :=
  match t with
  | Some n => if n =? 0 then default else n
  | None => default
  end.

Section WithEnv.
Context {L : Lib} {W : Type} {E : Env W}.

Definition loads (data : pystr) : M W value :=
  match json_loads data with
  | Some v => ret v
  | None => raise (OtherError (py "JSONDecodeError"))
  end.

Definition get (self : RedisCache) (key : pystr) : M W value :=
  emit (CallCacheGet key) ;;
  if negb (cache_enabled self) then ret VNone
  else
    try_except
      (data <- io (RedisGet key) (redis_get key) ;;
       match data with
       | Some d => if str_truthy d then loads d else ret VNone
       | None => ret VNone
       end)
      (fun exc => ret VNone).

(** The answer of [get] for each reply of the Redis client, in one
    expression: the summary the lemmas on [get] are stated with. *)
Definition get_answer (r : result (option pystr)) : value :=
  match r with
  | Ok (Some d) =>
      if str_truthy d
      then match json_loads d with Some v => v | None => VNone end
      else VNone
  | _ => VNone
  end.

Definition set (self : RedisCache) (key : pystr) (v : value) (t : option Z)
  : M W bool :=
  emit (CallCacheSet key v) ;;
  if negb (cache_enabled self) then ret false
  else
    try_except
      (let actual_ttl := ttl_or t (ttl self) in
       let serialized_value := json_dumps v in
       io (RedisSetex key actual_ttl serialized_value)
          (redis_setex key actual_ttl serialized_value) ;;
       ret true)
      (fun exc => ret false).

Definition delete (self : RedisCache) (key : pystr) : M W bool :=
  try_except
    (n <- io (RedisDelete key) (redis_delete key) ;;
     ret (negb (n =? 0)))
    (fun exc => ret false).

Definition health_check (self : RedisCache) : M W bool :=
  try_except
    (io RedisPing redis_ping ;; ret true)
    (fun exc => ret false).

Definition clear_cache (self : RedisCache) : M W bool :=
  try_except
    (io RedisFlushdb redis_flushdb ;; ret true)
    (fun exc => ret false).

End WithEnv.

End Cache.

(* ================================================================= *)
(** ** [src/services.py] *)

Module Services.

Import Models.

Record SentimentAnalysisService : Type := {
  cache : Cache.RedisCache;
  ollama_base_url : pystr;
  ollama_model : pystr;
  request_timeout : Z
}.

(** The judgment the code substitutes for a reply that is not JSON. *)
Definition fallback : value :=
  VDict [ (py "label", VStr (py "neutral"));
          (py "confidence", VNum (Fin 0));
          (py "explanation", VStr (py "Unable to determine sentiment")) ].

(** An exception of a class no handler of [analyze_sentiment] names. *)
Definition unexpected (e : exn) : bool :=
  match e with
  | OutputParserException _ | TimeoutError _ | ValidationError _ => false
  | _ => true
  end.

(** Something to await: what it gives when it is left to run to its end
    (the result or the exception, the seconds it took and the state after
    it), and the state in which it has been started and abandoned after a
    number of seconds. *)
Record awaitable (W A : Type) : Type := {
  completed : State W -> (result A * Q) * State W;
  abandoned : Z -> State W -> State W
}.

Arguments completed {W A} a s.
Arguments abandoned {W A} a seconds s.

Section WithEnv.
Context {L : Lib} {W : Type} {E : Env W}.

(** [chain.ainvoke({"text": text})] with [chain = prompt | llm | parser]:
    the parsed reply, or the exception, and the seconds it took. *)
Definition chain_ainvoke (text : pystr) : awaitable W value :=
  {| completed := fun s =>
       let '((r, seconds), w) := llm_ainvoke text (world s) in
       let s' := {| world := w; trace := trace s ++ [LlmInvoke text] |} in
       match r with
       | Ok raw =>
           match parse_json raw with
           | Some v => ((Ok v, seconds), s')
           | None =>
               ((Raise (OutputParserException (py "Invalid json output")),
                 seconds), s')
           end
       | Raise e => ((Raise e, seconds), s')
       end;
     abandoned := fun seconds s =>
       {| world := llm_cancel text seconds (world s);
          trace := trace s ++ [LlmInvoke text] |} |}.

(** [asyncio.wait_for(aw, timeout)].  With a timeout that is not positive
    the awaitable is cancelled before it starts and [TimeoutError] is
    raised.  Otherwise it runs; when it takes longer than [timeout] seconds
    it is abandoned at that point with a [TimeoutError]. *)
Definition wait_for {A : Type} (aw : awaitable W A) (timeout : Z) : M W A :=
  fun s =>
    if timeout <=? 0 then (Raise (TimeoutError (py "")), s)
    else
      let '((r, seconds), s') := completed aw s in
      if Qle_bool seconds (inject_Z timeout) then (r, s')
      else (Raise (TimeoutError (py "")), abandoned aw timeout s).

Definition analyze_sentiment (self : SentimentAnalysisService) (text : pystr)
  : M W SentimentResult :=
  emit (CallAnalyze text) ;;
  try_except
    (result <- wait_for (chain_ainvoke text) (request_timeout self) ;;
     lift (model_validate result))
    (fun exc =>
       match exc with
       | OutputParserException _ => lift (model_validate fallback)
       | TimeoutError _ =>
           raise (TimeoutError (py "Sentiment analysis request timed out"))
       | ValidationError errors =>
           raise (SentimentAnalysisError_init
                    (py "Invalid response format from LLM")
                    [(py "validation_errors", VList (map verror_value errors))])
       | _ =>
           raise (SentimentAnalysisError_init
                    (py "Unexpected error during sentiment analysis")
                    [(py "error", VStr (exn_str exc))])
       end).

End WithEnv.

End Services.

(* ================================================================= *)
(** ** [src/main.py] *)

Module Main.

Import Models.

(** The part of [settings] the pipeline reads: [settings.ollama.model]. *)
Record Settings : Type := { ollama_model : pystr }.

(** [hashlib.md5(text.encode('utf-8')).hexdigest()] *)
Definition generate_cache_key (text : pystr) : result pystr :=
  match encode_utf8 text with
  | Some bytes => Ok (Md5.hexdigest bytes)
  | None => Raise (UnicodeEncodeError (py "surrogates not allowed"))
  end.

(** The status code of the handler [exception_container] registers for
    the class of an exception. *)
Definition status_code (e : exn) : Z :=
  match e with
  | SentimentAnalysisError _ _ => 500
  | TimeoutError _ => 504
  | _ => 500
  end.

(** The [error] field of the envelope that handler writes. *)
Definition error_title (e : exn) : pystr :=
  match e with
  | SentimentAnalysisError _ _ => py "Sentiment analysis failed"
  | TimeoutError _ => py "Analysis timeout"
  | _ => py "Internal server error"
  end.

(** The three keys of [response_data], the cached unit. *)
Definition response_data (text : pystr) (r : SentimentResult) (model : pystr) : dict :=
  [ (py "text", VStr text);
    (py "sentiment", model_dump r);
    (py "model_used", VStr model) ].

Section WithEnv.
Context {L : Lib} {W : Type} {E : Env W}.

(** The keyword arguments the handler adds to the cached or fresh data. *)
Definition assembly (is_cached : bool) (start_time : Q) : M W dict :=
  t <- clock time_time ;;
  now <- clock datetime_now ;;
  ret [ (py "cached", VBool is_cached);
        (py "processing_time", VNum (Fin (t - start_time)));
        (py "timestamp", VDatetime now) ].

(** [POST /analyze] *)
Definition analyze_sentiment
  (settings : Settings) (service : Services.SentimentAnalysisService)
  (cache : Cache.RedisCache) (request_text : pystr) : M W AnalysisResponse :=
  start_time <- clock time_time ;;
  cache_key <- lift (generate_cache_key request_text) ;;
  cached_result <- Cache.get cache cache_key ;;
  if truthy cached_result then
    match cached_result with
    | VDict d =>
        extra <- assembly true start_time ;;
        if existsb (fun kv => dict_has (fst kv) d) extra
        then raise (TypeError (py "got multiple values for keyword argument"))
        else lift (AnalysisResponse_init (d ++ extra))
    | _ => raise (TypeError (py "argument after ** must be a mapping"))
    end
  else
    sentiment_result <- Services.analyze_sentiment service request_text ;;
    let data := response_data request_text sentiment_result (ollama_model settings) in
    Cache.set cache cache_key (VDict data) None ;;
    extra <- assembly false start_time ;;
    lift (AnalysisResponse_init (data ++ extra)).

End WithEnv.

End Main.

(* ================================================================= *)
(** ** A concrete world: an in-memory Redis and a scripted model *)

Module Mem.

(** The server is reachable or not; a key maps to its data and the instant
    it expires; the model answers by a script. *)
Record World : Type := {
  up : bool;
  db : list (pystr * (pystr * Q));
  now : Q;
  script : pystr -> result pystr * Q
}.

Definition with_db (w : World) (d : list (pystr * (pystr * Q))) : World :=
  {| up := up w; db := d; now := now w; script := script w |}.

Definition with_now (w : World) (t : Q) : World :=
  {| up := up w; db := db w; now := t; script := script w |}.

Fixpoint lookup (k : pystr) (d : list (pystr * (pystr * Q))) : option (pystr * Q) :=
  match d with
  | [] => None
  | (k', x) :: d' => if str_eqb k k' then Some x else lookup k d'
  end.

Definition remove (k : pystr) (d : list (pystr * (pystr * Q))) :=
  filter (fun kx => negb (str_eqb k (fst kx))) d.

Definition live (w : World) (k : pystr) : option pystr :=
  match lookup k (db w) with
  | Some (data, expiry) =>
      if Qle_bool expiry (now w) then None else Some data
  | None => None
  end.

Definition down {A : Type} : result A :=
  Raise (OtherError (py "Error connecting to redis")).

#[export] Instance env : Env World := {
  redis_get k w := if up w then (Ok (live w k), w) else (down, w);
  redis_setex k seconds data w :=
    if negb (up w) then (down, w)
    else if seconds <=? 0
    then (Raise (OtherError (py "invalid expire time in 'setex' command")), w)
    else (Ok tt, with_db w ((k, (data, now w + inject_Z seconds)%Q) :: remove k (db w)));
  redis_delete k w :=
    if negb (up w) then (down, w)
    else match live w k with
         | Some _ => (Ok 1, with_db w (remove k (db w)))
         | None => (Ok 0, with_db w (remove k (db w)))
         end;
  redis_ping w := if up w then (Ok tt, w) else (down, w);
  redis_flushdb w := if up w then (Ok tt, with_db w []) else (down, w);
  llm_ainvoke t w := (script w t, with_now w (now w + snd (script w t))%Q);
  llm_cancel t seconds w := with_now w (now w + inject_Z seconds)%Q;
  time_time w := (now w, w);
  datetime_now w := (now w, w)
}.

(** The judgments of the two tests of [POST /analyze]. *)
Definition judgment_095 : Models.SentimentResult :=
  {| Models.label := Models.POSITIVE; Models.confidence := Fin (95 # 100);
     Models.explanation := Some (py "Great product!") |}.

Definition judgment_088 : Models.SentimentResult :=
  {| Models.label := Models.POSITIVE; Models.confidence := Fin (88 # 100);
     Models.explanation := Some (py "Cached explanation") |}.

(** A stand-in for the [json] module and the output parser that knows the
    documents of the test-suite, as its mocks do. *)
Definition documents : list (pystr * value) :=
  [ (py "{'label': 'positive', 'confidence': 0.95, 'explanation': 'Great product!'}",
     Models.model_dump judgment_095);
    (py "{'label': 'positive', 'confidence': 1.5}",
     VDict [ (py "label", VStr (py "positive"));
             (py "confidence", VNum (Fin (15 # 10))) ]);
    (py "{'text': 'I love this product!', 'sentiment': {'label': 'positive', 'confidence': 0.95, 'explanation': 'Great product!'}, 'model_used': 'llama3'}",
     VDict (Main.response_data (py "I love this product!") judgment_095
              (py "llama3")));
    (py "{'text': 'I love this product!', 'sentiment': {'label': 'positive', 'confidence': 0.88, 'explanation': 'Cached explanation'}, 'model_used': 'llama2'}",
     VDict (Main.response_data (py "I love this product!") judgment_088
              (py "llama2"))) ].

Fixpoint list_eqb {A : Type} (eqb : A -> A -> bool) (a b : list A) : bool :=
  match a, b with
  | [], [] => true
  | x :: a', y :: b' => eqb x y && list_eqb eqb a' b'
  | _, _ => false
  end.

Definition float_eqb (x y : pyfloat) : bool :=
  match x, y with
  | Fin a, Fin b => Qeq_bool a b
  | PosInf, PosInf | NegInf, NegInf | NaN, NaN => true
  | _, _ => false
  end.

Fixpoint value_eqb (a b : value) : bool :=
  match a, b with
  | VNone, VNone => true
  | VBool x, VBool y => Bool.eqb x y
  | VNum x, VNum y => float_eqb x y
  | VStr x, VStr y => str_eqb x y
  | VList x, VList y => list_eqb value_eqb x y
  | VDict x, VDict y =>
      list_eqb (fun p q => str_eqb (fst p) (fst q) && value_eqb (snd p) (snd q)) x y
  | VDatetime x, VDatetime y => Qeq_bool x y
  | _, _ => false
  end.

Definition parse (s : pystr) : option value := dict_get s documents.

Definition print (v : value) : pystr :=
  match find (fun kv => value_eqb v (snd kv)) documents with
  | Some kv => fst kv
  | None => py "null"
  end.

#[export] Instance lib : Lib := {
  json_dumps := print;
  json_loads := parse;
  parse_json := parse;
  str_to_float := fun _ => None
}.

Definition start (w : World) : State World := {| world := w; trace := [] |}.

(** The fixtures of the examples, after [tests/test_app.py]. *)

Definition cache0 : Cache.RedisCache :=
  {| Cache.ttl := 3600; Cache.cache_enabled := true |}.

Definition cache_off : Cache.RedisCache :=
  {| Cache.ttl := 3600; Cache.cache_enabled := false |}.

Definition service0 : Services.SentimentAnalysisService :=
  {| Services.cache := cache0;
     Services.ollama_base_url := py "http://ollama:11434";
     Services.ollama_model := py "llama3";
     Services.request_timeout := 30 |}.

Definition settings0 : Main.Settings := {| Main.ollama_model := py "llama3" |}.

Definition text0 : pystr := py "I love this product!".

(** [hashlib.md5(b"I love this product!").hexdigest()] *)
Definition key0 : pystr := py "5de35b58d7f5de8d786e8b90bacac816".

(** A reachable, empty Redis at instant 100 and a model that takes
    [secs] seconds to answer [reply]. *)
Definition world_of (reply : result pystr) (secs : Q) : World :=
  {| up := true; db := []; now := 100; script := fun _ => (reply, secs) |}.

Definition world_fresh : World :=
  world_of
    (Ok (py "{'label': 'positive', 'confidence': 0.95, 'explanation': 'Great product!'}"))
    2.

(** The same, with the entry of the cache-hit test already stored. *)
Definition world_seeded : World :=
  with_db world_fresh
    [ (key0,
       (py "{'text': 'I love this product!', 'sentiment': {'label': 'positive', 'confidence': 0.88, 'explanation': 'Cached explanation'}, 'model_used': 'llama2'}",
        5000%Q)) ].

Definition world_down : World :=
  {| up := false; db := []; now := 100;
     script := fun _ => (Raise (OtherError (py "connection refused")), 1%Q) |}.

End Mem.

(* ================================================================= *)
(** ** [src/config.py] *)

Module Config.

Record OllamaSettings : Type := {
  base_url : pystr;
  model : pystr;
  request_timeout : Z
}.

Record RedisSettings : Type := {
  host : pystr;
  port : Z;
  db : Z;
  user : option pystr;
  user_password : option pystr;
  redis_ttl : Z
}.

Record Settings : Type := { ollama : OllamaSettings; redis : RedisSettings }.

(** The values of the class attributes, without any environment variable. *)
Definition defaults : Settings :=
  {| ollama := {| base_url := py "http://ollama:11434"; model := py "llama3";
                  request_timeout := 30 |};
     redis := {| host := py "redis"; port := 6379; db := 0; user := None;
                 user_password := None; redis_ttl := 3600 |} |}.

(** What the request handler reads of the settings. *)
Definition pipeline (s : Settings) : Main.Settings :=
  {| Main.ollama_model := model (ollama s) |}.

End Config.

(* ================================================================= *)
(** ** [src/main.py]: the application around the pipeline *)

Module Http.

(** [JSONResponse(status_code=..., content=...)] *)
Record JSONResponse : Type := { status_code : Z; content : dict }.

(** [ErrorResponse(error=..., details=..., code=...).model_dump()] *)
Definition ErrorResponse (error details : pystr) (code : Z) : dict :=
  [ (py "error", VStr error);
    (py "details", VStr details);
    (py "code", VNum (Fin (inject_Z code))) ].

Definition sentiment_analysis_exception_handler (exc : exn) : JSONResponse :=
  {| status_code := 500;
     content := ErrorResponse (py "Sentiment analysis failed") (exn_str exc) 500 |}.

Definition timeout_exception_handler (exc : exn) : JSONResponse :=
  {| status_code := 504;
     content := ErrorResponse (py "Analysis timeout") (exn_str exc) 504 |}.

Definition general_exception_handler (exc : exn) : JSONResponse :=
  {| status_code := 500;
     content := ErrorResponse (py "Internal server error") (exn_str exc) 500 |}.

(** [exception_container]: the handler registered for the class of the
    exception, the most specific class first. *)
Definition exception_container (exc : exn) : JSONResponse :=
  match exc with
  | SentimentAnalysisError _ _ => sentiment_analysis_exception_handler exc
  | TimeoutError _ => timeout_exception_handler exc
  | _ => general_exception_handler exc
  end.

(** What an endpoint that may raise [HTTPException] ends with. *)
Inductive http_result (A : Type) : Type :=
| Return (a : A)
| HTTPException (status : Z) (detail : pystr).

Arguments Return {A} a.
Arguments HTTPException {A} status detail.


(** What the client of [POST /analyze] gets: the 422 of the framework for
    a body that does not validate (with the errors; the body of that
    response is built by the framework), the response of an exception
    handler, or the outcome with status 200. *)
Inductive analyze_reply : Type :=
| Unprocessable (errors : list verror)
| Failed (response : JSONResponse)
| Analyzed (outcome : Models.AnalysisResponse).

Definition reply_status (r : analyze_reply) : Z :=
  match r with
  | Unprocessable _ => 422
  | Failed response => status_code response
  | Analyzed _ => 200
  end.

(** What [lifespan] stores in [app.state] for the handlers. *)
Record AppState : Type := {
  redis_cache : Cache.RedisCache;
  sentiment_service : Services.SentimentAnalysisService
}.

Section WithEnv.
Context {L : Lib} {W : Type} {E : Env W}.

(** [datetime.isoformat], which this repository does not define. *)
Variable isoformat : Q -> pystr.


(** [GET /health] *)
Definition health_check (cache : Cache.RedisCache) : M W JSONResponse :=
  cache_health <- Cache.health_check cache ;;
  let code := if cache_health : bool then 200 else 503 in
  now <- clock datetime_now ;;
  ret {| status_code := code;
         content :=
           [ (py "status",
               VStr (if cache_health then py "healthy" else py "degraded"));
             (py "timestamp", VStr (isoformat now));
             (py "cache",
               VStr (if cache_health then py "healthy" else py "unhealthy")) ] |}.

(** [POST /cache/clear] *)
Definition clear_cache (cache : Cache.RedisCache) : M W (http_result dict) :=
  success <- Cache.clear_cache cache ;;
  if negb success
  then ret (HTTPException 500 (py "Failed to clear cache"))
  else ret (Return [(py "message", VStr (py "Cache cleared successfully"))]).

(** The part of [lifespan] before [yield].  [clients] is the outcome of
    building the Redis client and the model client ([redis.from_url],
    [OllamaLLM]), which send nothing.  The answer is the state of the
    application, or the message of the [SystemExit] the function raises. *)
Definition lifespan
  (settings : Config.Settings) (clients : result unit) : M W (pystr + AppState) :=
  try_except
    (lift clients ;;
     let cache :=
       {| Cache.ttl := Config.redis_ttl (Config.redis settings);
          Cache.cache_enabled := true |} in
     let service :=
       {| Services.cache := cache;
          Services.ollama_base_url := Config.base_url (Config.ollama settings);
          Services.ollama_model := Config.model (Config.ollama settings);
          Services.request_timeout :=
            Config.request_timeout (Config.ollama settings) |} in
     cache_health <- Cache.health_check cache ;;
     ret (inr {| redis_cache := cache; sentiment_service := service |}))
    (fun exc => ret (inl (py "Startup failed: " ++ exn_str exc))).

End WithEnv.

End Http.

(* ================================================================= *)
(** ** More fixtures *)

Module Fixtures.

(** A stand-in for the [json] module that knows the given documents. *)
Definition lib_of (docs : list (pystr * value)) : Lib :=
  {| json_dumps := fun v =>
       match find (fun kv => Mem.value_eqb v (snd kv)) docs with
       | Some kv => fst kv
       | None => py "null"
       end;
     json_loads := fun s => dict_get s docs;
     parse_json := fun s => dict_get s docs;
     str_to_float := fun _ => None |}.

(** Data that is not a stored unit: a list, a unit with a reserved key, a
    unit without judgment, and a unit with more keys and no model. *)
Definition odd_documents : list (pystr * value) :=
  [ (py "[1]", VList [VNum (Fin 1)]);
    (py "{'text': 'x', 'cached': false}",
     VDict [ (py "text", VStr (py "x")); (py "cached", VBool false) ]);
    (py "{'text': 'x'}", VDict [ (py "text", VStr (py "x")) ]);
    (py "{'text': 'x', 'sentiment': {...}, 'source': 'import'}",
     VDict [ (py "text", VStr (py "x"));
             (py "sentiment", Models.model_dump Mem.judgment_088);
             (py "source", VStr (py "import")) ]) ].

Definition odd_lib : Lib := lib_of odd_documents.

(** A reachable Redis that holds [data] under the key of the test text. *)
Definition world_holding (data : pystr) : Mem.World :=
  Mem.with_db Mem.world_fresh [ (Mem.key0, (data, 5000%Q)) ].

Definition isoformat (t : Q) : pystr := py "2024-01-01T00:00:00".

End Fixtures.

(* ================================================================= *)
(** * Properties *)

(** ** Strings and keys *)

Lemma str_eqb_refl (a : pystr) : str_eqb a a = true.
Proof.
  induction a as [|x a IH]; simpl; [reflexivity|].
  now rewrite Z.eqb_refl, IH.
Qed.

Lemma str_eqb_eq (a b : pystr) : str_eqb a b = true <-> a = b.
Proof.
  split.
  - revert b; induction a as [|x a IH]; intros [|y b]; simpl; try discriminate.
    + reflexivity.
    + intros H. apply andb_true_iff in H as [Hx Hr].
      apply Z.eqb_eq in Hx. now rewrite Hx, (IH b Hr).
  - intros ->. apply str_eqb_refl.
Qed.












Ltac dlia := Z.div_mod_to_equations; lia.




(** The digests [hashlib.md5] gives, on messages of one and of two blocks. *)
Example md5_empty :
  Md5.hexdigest [] = py "d41d8cd98f00b204e9800998ecf8427e".
Proof. vm_compute. reflexivity. Qed.

Example md5_abc :
  option_map Md5.hexdigest (encode_utf8 (py "abc"))
  = Some (py "900150983cd24fb0d6963f7d28e17f72").
Proof. vm_compute. reflexivity. Qed.

Example md5_two_blocks :
  Md5.hexdigest (repeat 97 56) = py "3b0c8ac703f828b04c6c197006d17218".
Proof. vm_compute. reflexivity. Qed.

(** [hashlib.md5("h\u00e9llo \u4e16\u754c \U0001f600".encode("utf-8"))] *)
Example md5_utf8 :
  option_map Md5.hexdigest
    (encode_utf8 [104; 233; 108; 108; 111; 32; 19990; 30028; 32; 128512])
  = Some (py "31e6321f1488d7ffab86ffd75e0b354b").
Proof. vm_compute. reflexivity. Qed.

Lemma bytes_le_length (k : nat) (n : Z) : List.length (Md5.bytes_le k n) = k.
Proof. unfold Md5.bytes_le. now rewrite length_map, length_seq. Qed.

Lemma digest_length (msg : list Z) : List.length (Md5.digest msg) = 16%nat.
Proof.
  unfold Md5.digest.
  destruct (Md5.blocks _ Md5.init (Md5.pad msg)) as [[[a b] c] d].
  now rewrite !length_app, !bytes_le_length.
Qed.

Lemma hexdigest_length (msg : list Z) : List.length (Md5.hexdigest msg) = 32%nat.
Proof.
  unfold Md5.hexdigest.
  assert (H : forall l : list Z,
             List.length
               (flat_map (fun b => [Md5.hex_digit (Z.shiftr b 4);
                                    Md5.hex_digit (Z.land b 15)]) l)
             = (2 * List.length l)%nat).
  { induction l as [|x l IH]; simpl; [reflexivity|]. rewrite IH. lia. }
  now rewrite H, digest_length.
Qed.

(** ** The models *)

Section ModelFacts.
Context {L : Lib}.
Import Models.

Lemma label_of_value_label_value (l : SentimentLabel) :
  label_of_value (label_value l) = Some l.
Proof. destruct l; reflexivity. Qed.

Lemma label_of_value_inv (s : pystr) (l : SentimentLabel) :
  label_of_value s = Some l -> s = label_value l.
Proof.
  unfold label_of_value.
  destruct (str_eqb s (py "positive")) eqn:H1;
    [intros [= <-]; now apply str_eqb_eq in H1|].
  destruct (str_eqb s (py "negative")) eqn:H2;
    [intros [= <-]; now apply str_eqb_eq in H2|].
  destruct (str_eqb s (py "neutral")) eqn:H3;
    [intros [= <-]; now apply str_eqb_eq in H3|].
  destruct (str_eqb s (py "mixed")) eqn:H4;
    [intros [= <-]; now apply str_eqb_eq in H4|].
  discriminate.
Qed.

Lemma validate_label_inv (v : option value) (l : SentimentLabel) :
  validate_label v = inr l -> v = Some (VStr (label_value l)).
Proof.
  destruct v as [[]|]; simpl; try discriminate.
  destruct (label_of_value s) eqn:H; [|discriminate].
  intros [= <-]. now rewrite (label_of_value_inv _ _ H).
Qed.

Lemma validate_confidence_inv (v : option value) (f : pyfloat) :
  validate_confidence v = inr f ->
  exists x, v = Some x /\ lax_float x = Some f /\ confidence_in_range f = true.
Proof.
  unfold validate_confidence, confidence_in_range.
  destruct v as [x|]; [|discriminate].
  destruct (lax_float x) as [g|] eqn:Hx; [|discriminate].
  destruct (float_le g (Fin 1)) eqn:H1; cbn [negb]; [|discriminate].
  destruct (float_le (Fin 0) g) eqn:H0; cbn [negb]; [|discriminate].
  intros E. injection E as E. subst. exists x. now rewrite H0, H1.
Qed.

Lemma validate_confidence_out_of_range (x : value) (f : pyfloat) :
  lax_float x = Some f -> confidence_in_range f = false ->
  exists e, validate_confidence (Some x) = inl [e].
Proof.
  unfold validate_confidence, confidence_in_range. intros -> H.
  destruct (float_le f (Fin 1)); cbn [negb]; [|unfold err; eauto].
  rewrite andb_true_r in H. rewrite H. unfold err; cbn [negb]; eauto.
Qed.

Lemma SentimentResult_fields_inv (d : dict) (r : SentimentResult) :
  SentimentResult_fields d = inr r ->
  validate_label (dict_get (py "label") d) = inr (label r) /\
  validate_confidence (dict_get (py "confidence") d) = inr (confidence r).
Proof.
  unfold SentimentResult_fields.
  destruct (validate_label _) as [?|l]; [discriminate|].
  destruct (validate_confidence _) as [?|c]; [discriminate|].
  destruct (validate_opt_str _ _) as [?|e]; [discriminate|].
  now intros [= <-].
Qed.

(** Whatever [model_validate] accepts is within the bounds. *)
Lemma model_validate_in_range (obj : value) (r : SentimentResult) :
  model_validate obj = Ok r -> confidence_in_range (confidence r) = true.
Proof.
  unfold model_validate, SentimentResult_validate.
  destruct obj; try discriminate.
  destruct (SentimentResult_fields d) as [?|r'] eqn:H; [discriminate|].
  intros [= <-]. apply SentimentResult_fields_inv in H as [_ H].
  now apply validate_confidence_inv in H as (x & _ & _ & H).
Qed.

(** A judgment within the bounds survives [model_dump] and validation. *)
Lemma validate_model_dump (r : SentimentResult) :
  confidence_in_range (confidence r) = true ->
  SentimentResult_validate (model_dump r) = inr r.
Proof.
  intros H. destruct r as [l c e]. simpl in H.
  unfold confidence_in_range in H. apply andb_true_iff in H as [H0 H1].
  unfold model_dump, SentimentResult_validate, SentimentResult_fields.
  cbn [label confidence explanation].
  change (dict_get (py "label") _) with (Some (VStr (label_value l))).
  change (dict_get (py "confidence") _) with (Some (VNum c)).
  change (dict_get (py "explanation") _)
    with (Some (match e with Some s => VStr s | None => VNone end)).
  unfold validate_label. rewrite label_of_value_label_value.
  unfold validate_confidence, lax_float. rewrite H0, H1. simpl.
  now destruct e.
Qed.

Lemma fallback_valid :
  model_validate Services.fallback =
  Ok {| label := NEUTRAL; confidence := Fin 0;
        explanation := Some (py "Unable to determine sentiment") |}.
Proof. reflexivity. Qed.

(** The response built from the cached unit and the three keyword
    arguments of the handler. *)
Lemma AnalysisResponse_init_response_data
  (t : pystr) (r : SentimentResult) (m : pystr) (b : bool) (p : Q) (ts : Q) :
  confidence_in_range (confidence r) = true ->
  AnalysisResponse_init
    (Main.response_data t r m ++
     [ (py "cached", VBool b); (py "processing_time", VNum (Fin p));
       (py "timestamp", VDatetime ts) ])
  = Ok {| text := t; sentiment := r; cached := b;
          processing_time := Some (Fin p); model_used := Some m;
          timestamp := ts |}.
Proof.
  intros H. unfold AnalysisResponse_init, Main.response_data.
  change (dict_get (py "text") _) with (Some (VStr t)).
  change (dict_get (py "sentiment") _) with (Some (model_dump r)).
  change (dict_get (py "cached") _) with (Some (VBool b)).
  change (dict_get (py "processing_time") _) with (Some (VNum (Fin p))).
  change (dict_get (py "model_used") _) with (Some (VStr m)).
  change (dict_get (py "timestamp") _) with (Some (VDatetime ts)).
  cbv beta iota. now rewrite (validate_model_dump r H).
Qed.

End ModelFacts.

(** ** Running a computation *)

Section MonadFacts.
Context {W : Type}.

Lemma bind_ok {A B : Type} (m : M W A) (k : A -> M W B) (s s' : State W) (a : A) :
  m s = (Ok a, s') -> bind m k s = k a s'.
Proof. intros H. unfold bind. now rewrite H. Qed.

Lemma bind_raise {A B : Type} (m : M W A) (k : A -> M W B) (s s' : State W) (e : exn) :
  m s = (Raise e, s') -> bind m k s = (Raise e, s').
Proof. intros H. unfold bind. now rewrite H. Qed.

Lemma clock_run (op : W -> Q * W) (s : State W) :
  clock op s =
  (Ok (fst (op (world s))), {| world := snd (op (world s)); trace := trace s |}).
Proof. unfold clock. now destruct (op (world s)). Qed.

Lemma filter_app_nil {A : Type} (p : A -> bool) (l evs : list A) :
  filter p evs = [] -> filter p (l ++ evs) = filter p l.
Proof. intros H. now rewrite filter_app, H, app_nil_r. Qed.

End MonadFacts.

(** ** The cache store *)

Ltac unfold_monad :=
  unfold bind, try_except, ret, raise, lift, emit, io, clock in *.

Section CacheFacts.
Context {L : Lib} {W : Type} {E : Env W}.
Import Cache.

Lemma get_disabled (c : RedisCache) (key : pystr) (s : State W) :
  cache_enabled c = false ->
  get c key s =
  (Ok VNone, {| world := world s; trace := trace s ++ [CallCacheGet key] |}).
Proof. intros H. unfold get. unfold_monad. now rewrite H. Qed.

Lemma get_enabled (c : RedisCache) (key : pystr) (s : State W) :
  cache_enabled c = true ->
  get c key s =
  (Ok (get_answer (fst (redis_get key (world s)))),
   {| world := snd (redis_get key (world s));
      trace := trace s ++ [CallCacheGet key; RedisGet key] |}).
Proof.
  intros H. unfold get, loads. unfold_monad. rewrite H. simpl.
  destruct (redis_get key (world s)) as [[[d|]|e] w]; simpl;
    rewrite <- ?app_assoc; simpl; try reflexivity.
  destruct (str_truthy d); [|reflexivity].
  now destruct (json_loads d).
Qed.

Lemma set_disabled (c : RedisCache) (key : pystr) (v : value) (t : option Z)
  (s : State W) :
  cache_enabled c = false ->
  set c key v t s =
  (Ok false, {| world := world s; trace := trace s ++ [CallCacheSet key v] |}).
Proof. intros H. unfold set. unfold_monad. now rewrite H. Qed.

Lemma set_enabled (c : RedisCache) (key : pystr) (v : value) (t : option Z)
  (s : State W) :
  cache_enabled c = true ->
  set c key v t s =
  (Ok (match fst (redis_setex key (ttl_or t (ttl c)) (json_dumps v) (world s))
       with Ok _ => true | Raise _ => false end),
   {| world := snd (redis_setex key (ttl_or t (ttl c)) (json_dumps v) (world s));
      trace := trace s ++ [CallCacheSet key v;
                           RedisSetex key (ttl_or t (ttl c)) (json_dumps v)] |}).
Proof.
  intros H. unfold set. unfold_monad. rewrite H. simpl.
  destruct (redis_setex _ _ _ _) as [[u|e] w]; simpl;
    now rewrite <- app_assoc.
Qed.

(** A lookup never raises, and adds no backend call and no write. *)
Lemma get_returns (c : RedisCache) (key : pystr) (s : State W) :
  exists v w evs,
    get c key s = (Ok v, {| world := w; trace := trace s ++ evs |}) /\
    (evs = [CallCacheGet key] \/ evs = [CallCacheGet key; RedisGet key]).
Proof.
  destruct (cache_enabled c) eqn:H.
  - rewrite (get_enabled c key s H). eauto 6.
  - rewrite (get_disabled c key s H). eauto 6.
Qed.

Lemma set_returns (c : RedisCache) (key : pystr) (v : value) (t : option Z)
  (s : State W) :
  exists b w evs,
    set c key v t s = (Ok b, {| world := w; trace := trace s ++ evs |}) /\
    (evs = [CallCacheSet key v] \/
     evs = [CallCacheSet key v;
            RedisSetex key (ttl_or t (ttl c)) (json_dumps v)]).
Proof.
  destruct (cache_enabled c) eqn:H.
  - rewrite (set_enabled c key v t s H). eauto 6.
  - rewrite (set_disabled c key v t s H). eauto 6.
Qed.

Lemma delete_run (c : RedisCache) (key : pystr) (s : State W) :
  delete c key s =
  (Ok (match fst (redis_delete key (world s)) with
       | Ok n => negb (n =? 0)
       | Raise _ => false
       end),
   {| world := snd (redis_delete key (world s));
      trace := trace s ++ [RedisDelete key] |}).
Proof.
  unfold delete. unfold_monad.
  now destruct (redis_delete key (world s)) as [[n|e] w].
Qed.

Lemma health_check_run (c : RedisCache) (s : State W) :
  health_check c s =
  (Ok (match fst (redis_ping (world s)) with Ok _ => true | Raise _ => false end),
   {| world := snd (redis_ping (world s)); trace := trace s ++ [RedisPing] |}).
Proof.
  unfold health_check. unfold_monad.
  now destruct (redis_ping (world s)) as [[n|e] w].
Qed.

Lemma clear_cache_run (c : RedisCache) (s : State W) :
  clear_cache c s =
  (Ok (match fst (redis_flushdb (world s)) with Ok _ => true | Raise _ => false end),
   {| world := snd (redis_flushdb (world s)); trace := trace s ++ [RedisFlushdb] |}).
Proof.
  unfold clear_cache. unfold_monad.
  now destruct (redis_flushdb (world s)) as [[n|e] w].
Qed.

End CacheFacts.

(** ** The backend client *)

Section ServiceFacts.
Context {L : Lib} {W : Type} {E : Env W}.
Import Models Services.

Ltac unfold_service :=
  unfold analyze_sentiment, wait_for, chain_ainvoke;
  unfold_monad; cbn [completed abandoned world trace].

(** With a deadline that is not positive the model is never called. *)
Lemma analyze_sentiment_not_started
  (svc : SentimentAnalysisService) (text : pystr) (s : State W) :
  request_timeout svc <= 0 ->
  analyze_sentiment svc text s =
  (Raise (TimeoutError (py "Sentiment analysis request timed out")),
   {| world := world s; trace := trace s ++ [CallAnalyze text] |}).
Proof.
  intros H. apply Z.leb_le in H. unfold_service. now rewrite H.
Qed.

(** The events of a call of [analyze_sentiment]: the call itself and at
    most one invocation of the model. *)
Lemma analyze_sentiment_trace
  (svc : SentimentAnalysisService) (text : pystr) (s : State W) :
  exists evs,
    trace (snd (analyze_sentiment svc text s)) = trace s ++ evs /\
    (evs = [CallAnalyze text] \/ evs = [CallAnalyze text; LlmInvoke text]).
Proof.
  unfold_service.
  destruct (request_timeout svc <=? 0); [eexists; split; [reflexivity|]; auto|].
  exists [CallAnalyze text; LlmInvoke text]. split; [|auto].
  destruct (llm_ainvoke text (world s)) as [[[raw|e] secs] w].
  - destruct (parse_json raw) as [v|]; destruct (Qle_bool secs _);
      cbn [fst snd trace]; rewrite <- ?app_assoc; try reflexivity.
    destruct (model_validate v) as [r|[]]; cbn [snd trace];
      now rewrite <- ?app_assoc.
  - destruct (Qle_bool secs _); cbn [snd trace]; rewrite <- ?app_assoc;
      [destruct e|]; reflexivity.
Qed.

(** The client fails with a timeout or a structured failure, nothing else;
    what it returns is within the bounds. *)
Lemma analyze_sentiment_outcomes
  (svc : SentimentAnalysisService) (text : pystr) (s : State W) :
  match fst (analyze_sentiment svc text s) with
  | Ok r => confidence_in_range (confidence r) = true
  | Raise (TimeoutError _) => True
  | Raise (SentimentAnalysisError _ d) => d <> []
  | Raise _ => False
  end.
Proof.
  unfold_service.
  destruct (request_timeout svc <=? 0); [exact I|].
  destruct (llm_ainvoke text (world s)) as [[[raw|e] secs] w].
  - destruct (parse_json raw) as [v|]; destruct (Qle_bool secs _);
      cbn [fst]; try exact I; try reflexivity.
    destruct (model_validate v) as [r|e] eqn:H; cbn [fst].
    + now apply model_validate_in_range in H.
    + unfold model_validate in H.
      destruct (SentimentResult_validate v); [|discriminate].
      injection H as <-. cbn. discriminate.
  - destruct (Qle_bool secs _); cbn [fst]; [|exact I].
    destruct e; cbn; try exact I; try discriminate. reflexivity.
Qed.

(** A client that returns has invoked the model, once. *)
Lemma analyze_sentiment_ok_trace
  (svc : SentimentAnalysisService) (text : pystr) (r : SentimentResult)
  (s s2 : State W) :
  analyze_sentiment svc text s = (Ok r, s2) ->
  trace s2 = trace s ++ [CallAnalyze text; LlmInvoke text].
Proof.
  intros H. destruct (Z_le_gt_dec (request_timeout svc) 0) as [Hle|Hgt].
  - rewrite (analyze_sentiment_not_started svc text s Hle) in H. discriminate.
  - destruct (analyze_sentiment_trace svc text s) as (evs & Ht & Hevs).
    rewrite H in Ht. cbn [snd] in Ht. rewrite Ht.
    destruct Hevs as [-> | ->]; [|reflexivity]. exfalso.
    revert H Ht. unfold_service.
    assert (Hb : (request_timeout svc <=? 0) = false) by lia. rewrite Hb.
    destruct (llm_ainvoke text (world s)) as [[[raw|e] secs] w].
    + destruct (parse_json raw) as [v|]; destruct (Qle_bool secs _);
        try destruct (model_validate v) as [r'|[]];
        intros H; injection H as _ <-; cbn [trace];
        rewrite <- ?app_assoc; intros Ht; apply app_inv_head in Ht;
        discriminate.
    + destruct (Qle_bool secs _); [destruct e|];
        intros H; injection H as _ <-; cbn [trace];
        rewrite <- ?app_assoc; intros Ht; apply app_inv_head in Ht;
        discriminate.
Qed.

End ServiceFacts.

(** ** The request pipeline *)

Section PipelineFacts.
Context {L : Lib} {W : Type} {E : Env W}.
Import Models Main.

Lemma response_data_fresh_keys
  (t : pystr) (r : SentimentResult) (m : pystr) (b : bool) (p ts : Q) :
  existsb (fun kv => dict_has (fst kv) (response_data t r m))
    [ (py "cached", VBool b); (py "processing_time", VNum (Fin p));
      (py "timestamp", VDatetime ts) ] = false.
Proof. reflexivity. Qed.

Lemma assembly_run (b : bool) (t0 : Q) (s : State W) :
  assembly b t0 s =
  (Ok [ (py "cached", VBool b);
        (py "processing_time", VNum (Fin (fst (time_time (world s)) - t0)));
        (py "timestamp",
          VDatetime (fst (datetime_now (snd (time_time (world s)))))) ],
   {| world := snd (datetime_now (snd (time_time (world s))));
      trace := trace s |}).
Proof.
  unfold assembly.
  rewrite (bind_ok _ _ _ _ _ (clock_run _ _)).
  rewrite (bind_ok _ _ _ _ _ (clock_run _ _)).
  reflexivity.
Qed.

(** The pipeline up to the lookup. *)
Lemma analyze_sentiment_lookup
  (st : Settings) (svc : Services.SentimentAnalysisService)
  (c : Cache.RedisCache) (text key : pystr) (v : value) (s s1 : State W) :
  generate_cache_key text = Ok key ->
  Cache.get c key (snd (clock time_time s)) = (Ok v, s1) ->
  analyze_sentiment st svc c text s =
  (if truthy v then
     match v with
     | VDict d =>
         extra <- assembly true (fst (time_time (world s))) ;;
         if existsb (fun kv => dict_has (fst kv) d) extra
         then raise (TypeError (py "got multiple values for keyword argument"))
         else lift (AnalysisResponse_init (d ++ extra))
     | _ => raise (TypeError (py "argument after ** must be a mapping"))
     end
   else
     sentiment_result <- Services.analyze_sentiment svc text ;;
     let data := response_data text sentiment_result (ollama_model st) in
     Cache.set c key (VDict data) None ;;
     extra <- assembly false (fst (time_time (world s))) ;;
     lift (AnalysisResponse_init (data ++ extra))) s1.
Proof.
  intros Hk Hg. unfold analyze_sentiment.
  rewrite (bind_ok _ _ _ _ _ (clock_run _ _)).
  rewrite Hk. unfold lift at 1. unfold bind at 1.
  rewrite clock_run in Hg. simpl in Hg.
  now rewrite (bind_ok _ _ _ _ _ Hg).
Qed.

(** On a hit, whatever truthy value the lookup returned, nothing is
    called after the lookup. *)
Lemma hit_trace
  (st : Settings) (svc : Services.SentimentAnalysisService)
  (c : Cache.RedisCache) (text key : pystr) (v : value) (s s1 : State W) :
  generate_cache_key text = Ok key ->
  Cache.get c key (snd (clock time_time s)) = (Ok v, s1) ->
  truthy v = true ->
  trace (snd (analyze_sentiment st svc c text s)) = trace s1.
Proof.
  intros Hk Hg Ht. rewrite (analyze_sentiment_lookup _ _ _ _ _ _ _ _ Hk Hg), Ht.
  destruct v; try reflexivity.
  rewrite (bind_ok _ _ _ _ _ (assembly_run _ _ _)).
  match goal with |- context [if ?b then _ else _] => destruct b end;
    reflexivity.
Qed.

(** The pipeline on a stored unit. *)
Lemma hit_outcome
  (st : Settings) (svc : Services.SentimentAnalysisService)
  (c : Cache.RedisCache) (text key t' m : pystr) (r : SentimentResult)
  (s s1 : State W) :
  generate_cache_key text = Ok key ->
  Cache.get c key (snd (clock time_time s))
    = (Ok (VDict (response_data t' r m)), s1) ->
  confidence_in_range (confidence r) = true ->
  exists o s',
    analyze_sentiment st svc c text s = (Ok o, s') /\
    cached o = true /\ sentiment o = r /\ model_used o = Some m /\
    Models.text o = t' /\ trace s' = trace s1.
Proof.
  intros Hk Hg Hr.
  rewrite (analyze_sentiment_lookup _ _ _ _ _ _ _ _ Hk Hg).
  cbn [truthy response_data].
  rewrite (bind_ok _ _ _ _ _ (assembly_run _ _ _)).
  change (existsb _ _) with false. unfold lift.
  rewrite (AnalysisResponse_init_response_data t' r m _ _ _ Hr).
  eexists _, _. split; [reflexivity|]. now repeat split.
Qed.

(** The pipeline on a miss, when the backend client answers. *)
Lemma miss_outcome
  (st : Settings) (svc : Services.SentimentAnalysisService)
  (c : Cache.RedisCache) (text key : pystr) (v : value)
  (r : SentimentResult) (s s1 s2 : State W) :
  generate_cache_key text = Ok key ->
  Cache.get c key (snd (clock time_time s)) = (Ok v, s1) ->
  truthy v = false ->
  Services.analyze_sentiment svc text s1 = (Ok r, s2) ->
  let s3 := snd (Cache.set c key
                   (VDict (response_data text r (ollama_model st))) None s2) in
  exists o w,
    analyze_sentiment st svc c text s
      = (Ok o, {| world := w; trace := trace s3 |}) /\
    cached o = false /\ sentiment o = r /\
    model_used o = Some (ollama_model st) /\ Models.text o = text /\
    processing_time o =
      Some (Fin (fst (time_time (world s3)) - fst (time_time (world s)))).
Proof.
  intros Hk Hg Hv Hs s3.
  assert (Hr : confidence_in_range (confidence r) = true).
  { pose proof (analyze_sentiment_outcomes svc text s1) as H.
    now rewrite Hs in H. }
  rewrite (analyze_sentiment_lookup _ _ _ _ _ _ _ _ Hk Hg), Hv.
  rewrite (bind_ok _ _ _ _ _ Hs). cbv zeta.
  destruct (set_returns c key
              (VDict (response_data text r (ollama_model st))) None s2)
    as (b & w & evs2 & Hset & _).
  assert (Hs3 : s3 = {| world := w; trace := trace s2 ++ evs2 |}).
  { unfold s3. now rewrite Hset. }
  rewrite (bind_ok _ _ _ _ _ Hset).
  rewrite (bind_ok _ _ _ _ _ (assembly_run _ _ _)). unfold lift.
  rewrite (AnalysisResponse_init_response_data text r _ _ _ _ Hr).
  rewrite Hs3. eexists _, _. split; [reflexivity|]. now repeat split.
Qed.

End PipelineFacts.

(* ================================================================= *)
(** * The claims *)

Section Claims.
Context {L : Lib} {W : Type} {E : Env W}.
Import Models Main.

(** The events of a lookup are no backend call and no write. *)
Lemma lookup_events
  (c : Cache.RedisCache) (key : pystr) (v : value) (s s1 : State W) :
  Cache.get c key (snd (clock time_time s)) = (Ok v, s1) ->
  exists evs, trace s1 = trace s ++ evs /\
              filter is_backend evs = [] /\ filter is_cache_write evs = [] /\
              filter is_cache_set evs = [] /\ filter is_analyze evs = [] /\
              filter is_llm evs = [] /\ filter is_setex evs = [].
Proof.
  intros Hg. rewrite clock_run in Hg. simpl in Hg.
  destruct (get_returns c key
              {| world := snd (time_time (world s)); trace := trace s |})
    as (v' & w & evs & Hr & Hevs).
  rewrite Hr in Hg. injection Hg as _ <-. exists evs. simpl.
  destruct Hevs as [-> | ->]; repeat split; reflexivity.
Qed.

(** C1.  When the lookup for the derived key returns a stored entry (the
    cached unit [response_data] of some text, a judgment within the bounds
    and a model identifier), the pipeline returns an outcome with
    [cached = true] whose judgment and [model_used] are the stored ones, and
    no call of the backend client or of the model is made on that request.
    The last part holds for every truthy value the lookup returns. *)
Theorem cache_hit_returns_cached
  (st : Settings) (svc : Services.SentimentAnalysisService)
  (c : Cache.RedisCache) (text key : pystr) (v : value) (s s1 : State W) :
  generate_cache_key text = Ok key ->
  Cache.get c key (snd (clock time_time s)) = (Ok v, s1) ->
  truthy v = true ->
  (exists evs,
     trace (snd (analyze_sentiment st svc c text s)) = trace s ++ evs /\
     filter is_backend evs = []) /\
  (forall (t' m : pystr) (r : SentimentResult),
     v = VDict (response_data t' r m) ->
     confidence_in_range (confidence r) = true ->
     exists o s',
       analyze_sentiment st svc c text s = (Ok o, s') /\
       cached o = true /\ sentiment o = r /\ model_used o = Some m /\
       Models.text o = t').
Proof.
  intros Hk Hg Ht. split.
  - rewrite (hit_trace st svc c text key v s s1 Hk Hg Ht).
    destruct (lookup_events c key v s s1 Hg) as (evs & H1 & H2 & _).
    exists evs. now split.
  - intros t' m r -> Hr.
    rewrite (analyze_sentiment_lookup _ _ _ _ _ _ _ _ Hk Hg), Ht.
    rewrite (bind_ok _ _ _ _ _ (assembly_run _ _ _)).
    rewrite response_data_fresh_keys. unfold lift.
    rewrite (AnalysisResponse_init_response_data t' r m _ _ _ Hr).
    eexists _, _. split; [reflexivity|]. now repeat split.
Qed.

Lemma count_app (p : event -> bool) (a b : list event) :
  count p (a ++ b) = (count p a + count p b)%nat.
Proof. unfold count. now rewrite filter_app, length_app. Qed.

Lemma count_filter_nil (p : event -> bool) (a : list event) :
  filter p a = [] -> count p a = 0%nat.
Proof. unfold count. now intros ->. Qed.

(** C3.  When the lookup misses (its answer is falsy) and the backend
    client returns a judgment, the pipeline calls the client once (which
    invokes the model once), calls the store's [set] once, with the derived
    key and the unit made of the text, the fresh judgment and the configured
    model identifier (one [SETEX] when caching is enabled), and returns an
    outcome with [cached = false], that judgment, that identifier and the
    time elapsed since the clock reading that opens the request. *)
Theorem cache_miss_calls_backend_once
  (st : Settings) (svc : Services.SentimentAnalysisService)
  (c : Cache.RedisCache) (text key : pystr) (v : value)
  (r : SentimentResult) (s s1 s2 : State W) :
  generate_cache_key text = Ok key ->
  Cache.get c key (snd (clock time_time s)) = (Ok v, s1) ->
  truthy v = false ->
  Services.analyze_sentiment svc text s1 = (Ok r, s2) ->
  let data := VDict (response_data text r (ollama_model st)) in
  let s3 := snd (Cache.set c key data None s2) in
  exists o s' evs,
    analyze_sentiment st svc c text s = (Ok o, s') /\
    cached o = false /\ sentiment o = r /\
    model_used o = Some (ollama_model st) /\ Models.text o = text /\
    processing_time o =
      Some (Fin (fst (time_time (world s3)) - fst (time_time (world s)))) /\
    trace s' = trace s ++ evs /\
    count is_analyze evs = 1%nat /\ count is_llm evs = 1%nat /\
    count is_cache_set evs = 1%nat /\
    filter is_cache_set evs = [CallCacheSet key data] /\
    (Cache.cache_enabled c = true ->
     filter is_setex evs = [RedisSetex key (Cache.ttl c) (json_dumps data)]).
Proof.
  intros Hk Hg Hv Hs data s3.
  assert (Hr : confidence_in_range (confidence r) = true).
  { pose proof (analyze_sentiment_outcomes svc text s1) as H.
    now rewrite Hs in H. }
  assert (Ht2 : trace s2 = trace s1 ++ [CallAnalyze text; LlmInvoke text]).
  { exact (analyze_sentiment_ok_trace svc text r s1 s2 Hs). }
  destruct (lookup_events c key v s s1 Hg)
    as (evs1 & Ht1 & _ & _ & Hset1 & Han1 & Hllm1 & Hsx1).
  rewrite (analyze_sentiment_lookup _ _ _ _ _ _ _ _ Hk Hg), Hv.
  rewrite (bind_ok _ _ _ _ _ Hs). cbv zeta.
  destruct (set_returns c key data None s2) as (b & w & evs2 & Hset & Hevs2).
  fold data. rewrite (bind_ok _ _ _ _ _ Hset).
  rewrite (bind_ok _ _ _ _ _ (assembly_run _ _ _)). unfold lift.
  unfold data at 1.
  rewrite (AnalysisResponse_init_response_data text r _ _ _ _ Hr).
  eexists _, _, (evs1 ++ [CallAnalyze text; LlmInvoke text] ++ evs2).
  split; [reflexivity|]. cbn [cached sentiment model_used Models.text
                              processing_time trace world].
  assert (Hs3 : s3 = {| world := w; trace := trace s2 ++ evs2 |}).
  { unfold s3. now rewrite Hset. }
  repeat split.
  - now rewrite Hs3.
  - now rewrite Ht2, Ht1, <- !app_assoc.
  - rewrite !count_app, (count_filter_nil _ _ Han1).
    destruct Hevs2 as [-> | ->]; reflexivity.
  - rewrite !count_app, (count_filter_nil _ _ Hllm1).
    destruct Hevs2 as [-> | ->]; reflexivity.
  - rewrite !count_app, (count_filter_nil _ _ Hset1).
    destruct Hevs2 as [-> | ->]; reflexivity.
  - rewrite !filter_app, Hset1.
    destruct Hevs2 as [-> | ->]; reflexivity.
  - intros Hen. rewrite !filter_app, Hsx1.
    rewrite (set_enabled c key data None s2 Hen) in Hset.
    injection Hset as _ _ Hevs. apply app_inv_head in Hevs. subst evs2.
    reflexivity.
Qed.

(** C4.  When the lookup misses and the backend client fails, the
    pipeline fails with the very same exception, in the state the client
    left: no [set] was called and no [SETEX] sent.  The exception is a
    timeout (answered with status 504) or a structured analysis failure with
    details (answered with status 500); the pipeline adds no other kind. *)
Theorem backend_failure_propagates
  (st : Settings) (svc : Services.SentimentAnalysisService)
  (c : Cache.RedisCache) (text key : pystr) (v : value)
  (e : exn) (s s1 s2 : State W) :
  generate_cache_key text = Ok key ->
  Cache.get c key (snd (clock time_time s)) = (Ok v, s1) ->
  truthy v = false ->
  Services.analyze_sentiment svc text s1 = (Raise e, s2) ->
  analyze_sentiment st svc c text s = (Raise e, s2) /\
  (exists evs, trace s2 = trace s ++ evs /\ filter is_cache_write evs = []) /\
  ((exists m, e = TimeoutError m /\ status_code e = 504) \/
   (exists m d, e = SentimentAnalysisError m d /\ d <> [] /\
                status_code e = 500)).
Proof.
  intros Hk Hg Hv Hs.
  rewrite (analyze_sentiment_lookup _ _ _ _ _ _ _ _ Hk Hg), Hv.
  rewrite (bind_raise _ _ _ _ _ Hs). split; [reflexivity|]. split.
  - destruct (lookup_events c key v s s1 Hg) as (evs1 & Ht1 & _ & Hw & _).
    destruct (analyze_sentiment_trace svc text s1) as (evs2 & Ht2 & Hevs2).
    rewrite Hs in Ht2. cbn [snd] in Ht2.
    exists (evs1 ++ evs2). split.
    + now rewrite Ht2, Ht1, <- app_assoc.
    + rewrite filter_app, Hw. destruct Hevs2 as [-> | ->]; reflexivity.
  - pose proof (analyze_sentiment_outcomes svc text s1) as H.
    rewrite Hs in H. simpl in H.
    destruct e; try contradiction; [left | right]; eauto.
Qed.

(** C2.  The three-way distinction of [analyze_sentiment].  Let the model
    call, left to run, end after [secs] seconds with the reply or exception
    [reply].  (b) If [secs] exceeds the configured timeout, the client raises
    [TimeoutError]; so it does, without starting the call, when the timeout
    is not positive.  With a positive timeout that [secs] does not exceed:
    (a) a reply the output parser cannot read as JSON gives the fallback
    judgment (neutral, 0.0, ["Unable to determine sentiment"]), as a
    success; (c) a reply that parses and fails validation raises a
    [SentimentAnalysisError] whose details carry the validation errors, and
    an exception of any class the handlers do not name raises a
    [SentimentAnalysisError] whose details carry its text; a reply that
    parses and validates is returned. *)
Theorem analyze_sentiment_three_way
  (svc : Services.SentimentAnalysisService) (text : pystr) (s : State W)
  (reply : result pystr) (secs : Q) (w : W) :
  llm_ainvoke text (world s) = ((reply, secs), w) ->
  let outcome := fst (Services.analyze_sentiment svc text s) in
  ((inject_Z (Services.request_timeout svc) < secs)%Q ->
   outcome = Raise (TimeoutError (py "Sentiment analysis request timed out"))) /\
  (Services.request_timeout svc <= 0 ->
   outcome = Raise (TimeoutError (py "Sentiment analysis request timed out")) /\
   snd (Services.analyze_sentiment svc text s)
     = {| world := world s; trace := trace s ++ [CallAnalyze text] |}) /\
  (0 < Services.request_timeout svc ->
   (secs <= inject_Z (Services.request_timeout svc))%Q ->
   (forall raw, reply = Ok raw -> parse_json raw = None ->
      outcome = Ok {| label := NEUTRAL; confidence := Fin 0;
                      explanation := Some (py "Unable to determine sentiment") |}) /\
   (forall raw obj errors,
      reply = Ok raw -> parse_json raw = Some obj ->
      model_validate obj = Raise (ValidationError errors) ->
      outcome = Raise (SentimentAnalysisError
                         (py "Invalid response format from LLM")
                         [(py "validation_errors",
                           VList (map verror_value errors))])) /\
   (forall raw obj r,
      reply = Ok raw -> parse_json raw = Some obj ->
      model_validate obj = Ok r -> outcome = Ok r) /\
   (forall exc,
      reply = Raise exc -> Services.unexpected exc = true ->
      outcome = Raise (SentimentAnalysisError
                         (py "Unexpected error during sentiment analysis")
                         [(py "error", VStr (exn_str exc))]))).
Proof.
  intros Hllm outcome. subst outcome. split; [|split].
  - intros Hlt.
    destruct (Z_le_gt_dec (Services.request_timeout svc) 0) as [Hle|Hgt].
    { now rewrite (analyze_sentiment_not_started svc text s Hle). }
    assert (Hz : (Services.request_timeout svc <=? 0) = false) by lia.
    apply Qlt_not_le in Hlt.
    assert (Hb : Qle_bool secs (inject_Z (Services.request_timeout svc)) = false).
    { destruct (Qle_bool _ _) eqn:Hq; [|reflexivity].
      apply Qle_bool_iff in Hq. contradiction. }
    unfold Services.analyze_sentiment, Services.wait_for, Services.chain_ainvoke.
    unfold_monad. cbn [Services.completed Services.abandoned world trace].
    rewrite Hz, Hllm.
    destruct reply as [raw|exc]; [destruct (parse_json raw)|];
      rewrite Hb; reflexivity.
  - intros Hle.
    now rewrite (analyze_sentiment_not_started svc text s Hle).
  - intros Hpos Hle. apply Qle_bool_iff in Hle.
    assert (Hz : (Services.request_timeout svc <=? 0) = false) by lia.
    unfold Services.analyze_sentiment, Services.wait_for, Services.chain_ainvoke.
    unfold_monad. cbn [Services.completed Services.abandoned world trace].
    rewrite Hz, Hllm. repeat split.
    + intros raw -> Hp. rewrite Hp, Hle. reflexivity.
    + intros raw obj errors -> Hp Hv. rewrite Hp, Hle. cbn. now rewrite Hv.
    + intros raw obj r -> Hp Hv. rewrite Hp, Hle. cbn. now rewrite Hv.
    + intros exc -> Hu. rewrite Hle. destruct exc; try discriminate; reflexivity.
Qed.

(** C5.  [get] and [set] never raise.  With caching disabled, [get]
    answers [None] and [set] answers [False] without any command sent to
    Redis: the world is untouched and the trace only grows by the call
    itself.  When the [GET] raises, whatever the exception, [get] answers
    [None] (so it does for data [json.loads] rejects); when the [SETEX]
    raises, [set] answers [False]. *)
Theorem cache_get_set_degrade
  (c : Cache.RedisCache) (key : pystr) (v : value) (t : option Z) (s : State W) :
  (exists x s', Cache.get c key s = (Ok x, s')) /\
  (exists b s', Cache.set c key v t s = (Ok b, s')) /\
  (Cache.cache_enabled c = false ->
   Cache.get c key s =
     (Ok VNone, {| world := world s; trace := trace s ++ [CallCacheGet key] |}) /\
   Cache.set c key v t s =
     (Ok false, {| world := world s; trace := trace s ++ [CallCacheSet key v] |}) /\
   filter is_redis_io (trace (snd (Cache.get c key s))) =
     filter is_redis_io (trace s) /\
   filter is_redis_io (trace (snd (Cache.set c key v t s))) =
     filter is_redis_io (trace s)) /\
  (forall e w, redis_get key (world s) = (Raise e, w) ->
               fst (Cache.get c key s) = Ok VNone) /\
  (forall d w, redis_get key (world s) = (Ok (Some d), w) ->
               json_loads d = None -> fst (Cache.get c key s) = Ok VNone) /\
  (forall e w,
     redis_setex key (Cache.ttl_or t (Cache.ttl c)) (json_dumps v) (world s)
       = (Raise e, w) ->
     fst (Cache.set c key v t s) = Ok false).
Proof.
  repeat split.
  - destruct (get_returns c key s) as (x & w & evs & H & _). eauto.
  - destruct (set_returns c key v t s) as (b & w & evs & H & _). eauto.
  - now apply get_disabled.
  - now apply set_disabled.
  - rewrite (get_disabled c key s H). simpl. now apply filter_app_nil.
  - rewrite (set_disabled c key v t s H). simpl. now apply filter_app_nil.
  - intros e w H. destruct (Cache.cache_enabled c) eqn:Hen.
    + rewrite (get_enabled c key s Hen), H. reflexivity.
    + now rewrite (get_disabled c key s Hen).
  - intros d w H Hd. destruct (Cache.cache_enabled c) eqn:Hen.
    + rewrite (get_enabled c key s Hen), H. simpl. rewrite Hd.
      now destruct (str_truthy d).
    + now rewrite (get_disabled c key s Hen).
  - intros e w H. destruct (Cache.cache_enabled c) eqn:Hen.
    + rewrite (set_enabled c key v t s Hen), H. reflexivity.
    + now rewrite (set_disabled c key v t s Hen).
Qed.

(** C9.  [set] with [ttl=0] is [set] with no [ttl]: the same answer, the
    same world and the same trace.  With caching enabled the one command
    sent is a [SETEX] with the default time-to-live of the store, not with
    zero. *)
Theorem set_ttl_zero_is_default
  (c : Cache.RedisCache) (key : pystr) (v : value) (s : State W) :
  Cache.set c key v (Some 0) s = Cache.set c key v None s /\
  (Cache.cache_enabled c = true ->
   trace (snd (Cache.set c key v (Some 0) s)) =
   trace s ++ [CallCacheSet key v;
               RedisSetex key (Cache.ttl c) (json_dumps v)]).
Proof.
  split; [reflexivity|]. intros H.
  now rewrite (set_enabled c key v (Some 0) s H).
Qed.

End Claims.

(** C8.  A [SentimentResult] that validation returns has a label whose
    value is one of the four of the enumeration (the one the input carried)
    and a confidence that is a number between 0 and 1.  An input whose
    confidence is outside the bounds, or whose label is none of the four
    values, is rejected with a [ValidationError]; so is a response built
    from a cached unit whose judgment is rejected. *)
Theorem sentiment_result_invariant (L : Lib) :
  (forall obj r,
     Models.model_validate obj = Ok r ->
     In (Models.label_value (Models.label r))
        [py "positive"; py "negative"; py "neutral"; py "mixed"] /\
     (exists q, Models.confidence r = Fin q /\ (0 <= q)%Q /\ (q <= 1)%Q) /\
     (exists d, obj = VDict d /\
        dict_get (py "label") d = Some (VStr (Models.label_value (Models.label r))))) /\
  (forall d x f,
     dict_get (py "confidence") d = Some x ->
     Models.lax_float x = Some f ->
     Models.confidence_in_range f = false ->
     exists errors, Models.model_validate (VDict d) = Raise (ValidationError errors)) /\
  (forall d,
     (forall l, dict_get (py "label") d <> Some (VStr (Models.label_value l))) ->
     exists errors, Models.model_validate (VDict d) = Raise (ValidationError errors)) /\
  (forall kwargs obj errors,
     dict_get (py "sentiment") kwargs = Some obj ->
     Models.model_validate obj = Raise (ValidationError errors) ->
     exists errors', Models.AnalysisResponse_init kwargs = Raise (ValidationError errors')).
Proof.
  repeat split.
  - destruct (Models.label r); simpl; tauto.
  - apply model_validate_in_range in H.
    unfold Models.confidence_in_range in H. apply andb_true_iff in H as [H0 H1].
    destruct (Models.confidence r) as [q| | |]; try discriminate.
    exists q. simpl in H0, H1. apply Qle_bool_iff in H0, H1. auto.
  - unfold Models.model_validate, Models.SentimentResult_validate in H.
    destruct obj; try discriminate. exists d. split; [reflexivity|].
    destruct (Models.SentimentResult_fields d) as [?|r'] eqn:Hf; [discriminate|].
    injection H as <-. apply SentimentResult_fields_inv in Hf as [Hl _].
    now apply validate_label_inv.
  - intros d x f Hd Hx Hf. unfold Models.model_validate. simpl.
    unfold Models.SentimentResult_fields. rewrite Hd.
    destruct (validate_confidence_out_of_range x f Hx Hf) as [e ->].
    destruct (Models.validate_label _); eauto.
  - intros d Hl. unfold Models.model_validate. simpl.
    unfold Models.SentimentResult_fields.
    destruct (Models.validate_label _) as [es|l] eqn:H; [eauto|].
    apply validate_label_inv in H. now destruct (Hl l).
  - intros kwargs obj errors Hd Hv. unfold Models.AnalysisResponse_init.
    rewrite Hd. unfold Models.model_validate in Hv.
    destruct (Models.SentimentResult_validate obj) as [es|]; [|discriminate].
    destruct (Models.validate_str _ _); eauto.
Qed.

(** C10.  [delete], [health_check] and [clear_cache] do not read
    [cache_enabled]: with caching disabled each still sends its command to
    Redis (in every world, as the first thing it does), and [delete] answers
    [True] when Redis reports a removed key -- as it does in the in-memory
    world for a key that is present. *)
Theorem disabled_flag_gates_only_get_and_set :
  (forall (W : Type) (E : Env W) (c : Cache.RedisCache) (key : pystr) (s : State W),
     Cache.cache_enabled c = false ->
     trace (snd (Cache.delete c key s)) = trace s ++ [RedisDelete key] /\
     world (snd (Cache.delete c key s)) = snd (redis_delete key (world s)) /\
     trace (snd (Cache.health_check c s)) = trace s ++ [RedisPing] /\
     world (snd (Cache.health_check c s)) = snd (redis_ping (world s)) /\
     trace (snd (Cache.clear_cache c s)) = trace s ++ [RedisFlushdb] /\
     world (snd (Cache.clear_cache c s)) = snd (redis_flushdb (world s)) /\
     (forall n w, redis_delete key (world s) = (Ok n, w) -> n <> 0 ->
                  fst (Cache.delete c key s) = Ok true)) /\
  (exists (c : Cache.RedisCache) (key : pystr) (s : State Mem.World),
     Cache.cache_enabled c = false /\
     fst (Cache.delete (E := Mem.env) c key s) = Ok true /\
     Mem.live (world s) key <> None /\
     Mem.live (world (snd (Cache.delete (E := Mem.env) c key s))) key = None).
Proof.
  split.
  - intros W E c key s _.
    rewrite delete_run, health_check_run, clear_cache_run. simpl.
    repeat split. intros n w H Hn. rewrite H. simpl.
    destruct (n =? 0) eqn:Hz; [|reflexivity].
    apply Z.eqb_eq in Hz. contradiction.
  - exists {| Cache.ttl := 3600; Cache.cache_enabled := false |}, (py "k"),
      (Mem.start {| Mem.up := true;
                    Mem.db := [(py "k", (py "v", 10%Q))];
                    Mem.now := 0%Q;
                    Mem.script := fun _ => (Raise (OtherError (py "unused")), 0%Q) |}).
    repeat split; try reflexivity. discriminate.
Qed.

Section Idempotence.
Context {L : Lib} {W : Type} {E : Env W}.
Import Models Main.



End Idempotence.


#[local] Existing Instance Mem.lib.
#[local] Existing Instance Mem.env.




(** ** The theorems at the fixtures of the test-suite *)

Lemma cache_hit_returns_cached_witness :
  exists o s',
    Main.analyze_sentiment Mem.settings0 Mem.service0 Mem.cache0 Mem.text0
      (Mem.start Mem.world_seeded) = (Ok o, s') /\
    Models.cached o = true /\ Models.sentiment o = Mem.judgment_088 /\
    Models.model_used o = Some (py "llama2") /\ Models.text o = Mem.text0.
Proof.
  pose (g := Cache.get Mem.cache0 Mem.key0
               (snd (clock time_time (Mem.start Mem.world_seeded)))).
  assert (Hk : Main.generate_cache_key Mem.text0 = Ok Mem.key0)
    by (vm_compute; reflexivity).
  assert (Hg : g = (Ok (VDict (Main.response_data Mem.text0 Mem.judgment_088
                                 (py "llama2"))), snd g))
    by (vm_compute; reflexivity).
  exact (proj2 (cache_hit_returns_cached Mem.settings0 Mem.service0 Mem.cache0
                  Mem.text0 Mem.key0 _ _ _ Hk Hg eq_refl)
           Mem.text0 (py "llama2") Mem.judgment_088 eq_refl eq_refl).
Defined.

Lemma analyze_sentiment_three_way_witness :
  fst (Services.analyze_sentiment Mem.service0 Mem.text0
         (Mem.start (Mem.world_of (Ok (py "I think it is positive")) 2)))
  = Ok {| Models.label := Models.NEUTRAL; Models.confidence := Fin 0;
          Models.explanation := Some (py "Unable to determine sentiment") |}.
Proof.
  refine (proj1 (proj2 (proj2 (analyze_sentiment_three_way Mem.service0
                                 Mem.text0
                                 (Mem.start (Mem.world_of
                                               (Ok (py "I think it is positive")) 2))
                                 _ _ _ eq_refl)) _ _)
            (py "I think it is positive") eq_refl _).
  - vm_compute. reflexivity.
  - vm_compute. discriminate.
  - vm_compute. reflexivity.
Defined.

Lemma cache_miss_calls_backend_once_witness :
  exists o s' evs,
    Main.analyze_sentiment Mem.settings0 Mem.service0 Mem.cache0 Mem.text0
      (Mem.start Mem.world_fresh) = (Ok o, s') /\
    Models.cached o = false /\ Models.sentiment o = Mem.judgment_095 /\
    Models.model_used o = Some (py "llama3") /\
    trace s' = [] ++ evs /\
    count is_analyze evs = 1%nat /\ count is_cache_set evs = 1%nat.
Proof.
  pose (s0 := Mem.start Mem.world_fresh).
  pose (g := Cache.get Mem.cache0 Mem.key0 (snd (clock time_time s0))).
  pose (a := Services.analyze_sentiment Mem.service0 Mem.text0 (snd g)).
  assert (Hk : Main.generate_cache_key Mem.text0 = Ok Mem.key0)
    by (vm_compute; reflexivity).
  assert (Hg : g = (Ok VNone, snd g)) by (vm_compute; reflexivity).
  assert (Ha : a = (Ok Mem.judgment_095, snd a)) by (vm_compute; reflexivity).
  destruct (cache_miss_calls_backend_once Mem.settings0 Mem.service0 Mem.cache0
              Mem.text0 Mem.key0 VNone Mem.judgment_095 s0 (snd g) (snd a)
              Hk Hg eq_refl Ha)
    as (o & s' & evs & H & Hc & Hs & Hm & _ & _ & Ht & Hn & _ & Hw & _).
  exists o, s', evs. repeat split; assumption.
Defined.

Lemma backend_failure_propagates_witness :
  fst (Main.analyze_sentiment Mem.settings0 Mem.service0 Mem.cache0 Mem.text0
         (Mem.start (Mem.world_of (Ok (py "too late")) 31)))
  = Raise (TimeoutError (py "Sentiment analysis request timed out")).
Proof.
  pose (s0 := Mem.start (Mem.world_of (Ok (py "too late")) 31)).
  pose (g := Cache.get Mem.cache0 Mem.key0 (snd (clock time_time s0))).
  pose (a := Services.analyze_sentiment Mem.service0 Mem.text0 (snd g)).
  assert (Hk : Main.generate_cache_key Mem.text0 = Ok Mem.key0)
    by (vm_compute; reflexivity).
  assert (Hg : g = (Ok VNone, snd g)) by (vm_compute; reflexivity).
  assert (Ha : a = (Raise (TimeoutError
                             (py "Sentiment analysis request timed out")),
                    snd a)) by (vm_compute; reflexivity).
  exact (f_equal fst
           (proj1 (backend_failure_propagates Mem.settings0 Mem.service0
                     Mem.cache0 Mem.text0 Mem.key0 VNone _ s0 (snd g) (snd a)
                     Hk Hg eq_refl Ha))).
Defined.

Lemma cache_get_set_degrade_witness :
  fst (Cache.get Mem.cache0 Mem.key0 (Mem.start Mem.world_down)) = Ok VNone /\
  fst (Cache.set Mem.cache0 Mem.key0 (VDict []) None (Mem.start Mem.world_down))
    = Ok false /\
  Cache.get Mem.cache_off Mem.key0 (Mem.start Mem.world_fresh)
    = (Ok VNone, {| world := Mem.world_fresh; trace := [CallCacheGet Mem.key0] |}).
Proof.
  pose proof (cache_get_set_degrade Mem.cache0 Mem.key0 (VDict []) None
                (Mem.start Mem.world_down))
    as (_ & _ & _ & Hget & _ & Hset).
  pose proof (cache_get_set_degrade Mem.cache_off Mem.key0 (VDict []) None
                (Mem.start Mem.world_fresh))
    as (_ & _ & Hoff & _).
  split; [|split].
  - exact (Hget _ _ eq_refl).
  - exact (Hset _ _ eq_refl).
  - exact (proj1 (Hoff eq_refl)).
Defined.

Lemma set_ttl_zero_is_default_witness :
  trace (snd (Cache.set Mem.cache0 Mem.key0 (VDict []) (Some 0)
                (Mem.start Mem.world_fresh)))
  = [CallCacheSet Mem.key0 (VDict []);
     RedisSetex Mem.key0 3600 (json_dumps (VDict []))].
Proof.
  exact (proj2 (set_ttl_zero_is_default Mem.cache0 Mem.key0 (VDict [])
                  (Mem.start Mem.world_fresh)) eq_refl).
Defined.

Lemma sentiment_result_invariant_witness :
  (exists q, Models.confidence Mem.judgment_095 = Fin q /\ (0 <= q)%Q /\ (q <= 1)%Q) /\
  (exists errors,
     Models.model_validate
       (VDict [ (py "label", VStr (py "positive"));
                (py "confidence", VNum (Fin (15 # 10))) ])
     = Raise (ValidationError errors)).
Proof.
  split.
  - exact (proj1 (proj2 (proj1 (sentiment_result_invariant Mem.lib)
                           (Models.model_dump Mem.judgment_095) Mem.judgment_095
                           eq_refl))).
  - exact (proj1 (proj2 (sentiment_result_invariant Mem.lib))
             [ (py "label", VStr (py "positive"));
               (py "confidence", VNum (Fin (15 # 10))) ]
             (VNum (Fin (15 # 10))) (Fin (15 # 10)) eq_refl eq_refl eq_refl).
Defined.

Lemma disabled_flag_gates_only_get_and_set_witness :
  trace (snd (Cache.delete Mem.cache_off Mem.key0 (Mem.start Mem.world_seeded)))
    = [RedisDelete Mem.key0] /\
  fst (Cache.delete Mem.cache_off Mem.key0 (Mem.start Mem.world_seeded)) = Ok true.
Proof.
  pose proof (proj1 disabled_flag_gates_only_get_and_set Mem.World Mem.env
                Mem.cache_off Mem.key0 (Mem.start Mem.world_seeded) eq_refl)
    as (Ht & _ & _ & _ & _ & _ & Hd).
  split; [exact Ht|].
  refine (Hd 1 _ eq_refl _). discriminate.
Defined.

(** The in-memory Redis returns what was just stored. *)
Lemma mem_setex_then_get (key : pystr) (n : Z) (d : pystr) (w w1 : Mem.World) :
  redis_setex (Env := Mem.env) key n d w = (Ok tt, w1) ->
  fst (redis_get (Env := Mem.env) key w1) = Ok (Some d).
Proof.
  cbn [redis_setex redis_get Mem.env].
  destruct (Mem.up w) eqn:Hup; cbn [negb]; [|discriminate].
  destruct (n <=? 0) eqn:Hn; [discriminate|].
  intros H. injection H as <-. cbn [Mem.up Mem.with_db]. rewrite Hup.
  cbn [fst]. unfold Mem.live. cbn [Mem.db Mem.with_db Mem.lookup Mem.now].
  rewrite str_eqb_refl.
  destruct (Qle_bool (Mem.now w + inject_Z n) (Mem.now w)) eqn:Hq;
    [|reflexivity].
  apply Qle_bool_iff in Hq. exfalso.
  apply Z.leb_gt in Hn.
  assert (Hpos : (0 < inject_Z n)%Q).
  { unfold Qlt, inject_Z. cbn. lia. }
  apply (Qlt_irrefl (Mem.now w)).
  eapply Qlt_le_trans; [|exact Hq].
  rewrite <- (Qplus_0_r (Mem.now w)) at 1.
  apply Qplus_lt_r. exact Hpos.
Qed.


(* ================================================================= *)
(** * Further properties of the code *)

(** ** [src/cache.py] *)

Section CacheMore.
Context {L : Lib} {W : Type} {E : Env W}.

(** X1.  [delete], [health_check] and [clear_cache] never raise, whatever
    the Redis client does.  [delete] answers [True] exactly when [DEL]
    reports at least one removed key (so [False] for an absent key);
    [health_check] and [clear_cache] answer [True] exactly when their
    command does not raise. *)
Theorem delete_health_clear_never_raise
  (c : Cache.RedisCache) (key : pystr) (s : State W) :
  (exists b, fst (Cache.delete c key s) = Ok b /\
     (b = true <->
      exists n, fst (redis_delete key (world s)) = Ok n /\ n <> 0)) /\
  (exists b, fst (Cache.health_check c s) = Ok b /\
     (b = true <-> exists u, fst (redis_ping (world s)) = Ok u)) /\
  (exists b, fst (Cache.clear_cache c s) = Ok b /\
     (b = true <-> exists u, fst (redis_flushdb (world s)) = Ok u)).
Proof.
  rewrite delete_run, health_check_run, clear_cache_run. cbn [fst].
  split; [|split]; eexists; (split; [reflexivity|]).
  - destruct (fst (redis_delete key (world s))) as [n|e].
    + split.
      * intros H. exists n. split; [reflexivity|].
        intros ->. discriminate.
      * intros (m & Hm & Hn). injection Hm as <-.
        destruct (n =? 0) eqn:Hz; [|reflexivity].
        apply Z.eqb_eq in Hz. contradiction.
    + split; [discriminate|]. intros (m & Hm & _). discriminate.
  - destruct (fst (redis_ping (world s))) as [u|e]; split; eauto;
      try discriminate. intros [u H]. discriminate.
  - destruct (fst (redis_flushdb (world s))) as [u|e]; split; eauto;
      try discriminate. intros [u H]. discriminate.
Qed.

(** X2.  The answers of [get] and [set] are sound.  A lookup that answers
    anything but [None] ran with caching enabled, and its answer is
    [json.loads] of the non-empty data [GET] returned.  A [set] that answers
    [True] ran with caching enabled, and its [SETEX] -- with the key, the
    [json.dumps] of the value, and the given time-to-live or, for [None] and
    0, the default one -- did not raise. *)
Theorem get_set_answers_sound
  (c : Cache.RedisCache) (key : pystr) (v x : value) (t : option Z)
  (s : State W) :
  (fst (Cache.get c key s) = Ok x -> x <> VNone ->
   Cache.cache_enabled c = true /\
   exists d, fst (redis_get key (world s)) = Ok (Some d) /\
             d <> [] /\ json_loads d = Some x) /\
  (fst (Cache.set c key v t s) = Ok true ->
   Cache.cache_enabled c = true /\
   fst (redis_setex key
          (match t with Some n => if n =? 0 then Cache.ttl c else n
                      | None => Cache.ttl c end)
          (json_dumps v) (world s)) = Ok tt).
Proof.
  split.
  - intros H Hx. destruct (Cache.cache_enabled c) eqn:Hen.
    + split; [reflexivity|]. rewrite (get_enabled c key s Hen) in H.
      cbn [fst] in H. injection H as H.
      destruct (fst (redis_get key (world s))) as [[d|]|e];
        cbn [Cache.get_answer] in H; try (now destruct Hx).
      exists d. split; [reflexivity|].
      destruct d as [|a d]; cbn [str_truthy] in H; [now destruct Hx|].
      split; [discriminate|].
      destruct (json_loads (a :: d)) as [y|]; [now subst|now destruct Hx].
    + rewrite (get_disabled c key s Hen) in H. injection H as <-.
      now destruct Hx.
  - intros H. destruct (Cache.cache_enabled c) eqn:Hen.
    + split; [reflexivity|]. rewrite (set_enabled c key v t s Hen) in H.
      cbn [fst] in H. unfold Cache.ttl_or in H.
      destruct (fst (redis_setex _ _ _ _)) as [[]|e]; [reflexivity|discriminate].
    + rewrite (set_disabled c key v t s Hen) in H. discriminate.
Qed.

(** X3.  What [set] stores, [get] finds.  When Redis answers a [GET] that
    follows a successful [SETEX] of the same key with the data just stored,
    and [json.loads] inverts [json.dumps] on the value (whose serialisation
    is not empty), a lookup right after a [set] that answered [True] answers
    the value. *)
Theorem set_then_get
  (c : Cache.RedisCache) (key : pystr) (v : value) (t : option Z)
  (s s1 : State W) :
  (forall n d w w1, redis_setex key n d w = (Ok tt, w1) ->
                    fst (redis_get key w1) = Ok (Some d)) ->
  str_truthy (json_dumps v) = true ->
  json_loads (json_dumps v) = Some v ->
  Cache.set c key v t s = (Ok true, s1) ->
  fst (Cache.get c key s1) = Ok v.
Proof.
  intros Hlaw Hne Hrt Hset.
  destruct (Cache.cache_enabled c) eqn:Hen.
  2:{ rewrite (set_disabled c key v t s Hen) in Hset. discriminate. }
  rewrite (set_enabled c key v t s Hen) in Hset.
  destruct (redis_setex key (Cache.ttl_or t (Cache.ttl c)) (json_dumps v)
              (world s)) as [[[]|e] w1] eqn:Hsx; cbn [fst snd] in Hset;
    [|discriminate].
  injection Hset as <-. rewrite (get_enabled c key _ Hen). cbn [fst world].
  rewrite (Hlaw _ _ _ _ Hsx). cbn [Cache.get_answer]. now rewrite Hne, Hrt.
Qed.

End CacheMore.

Lemma set_then_get_witness :
  fst (Cache.get Mem.cache0 Mem.key0
         (snd (Cache.set Mem.cache0 Mem.key0
                 (VDict (Main.response_data Mem.text0 Mem.judgment_095 (py "llama3")))
                 None (Mem.start Mem.world_fresh))))
  = Ok (VDict (Main.response_data Mem.text0 Mem.judgment_095 (py "llama3"))).
Proof.
  apply (set_then_get Mem.cache0 Mem.key0 _ None (Mem.start Mem.world_fresh)).
  - exact (mem_setex_then_get Mem.key0).
  - vm_compute. reflexivity.
  - vm_compute. reflexivity.
  - vm_compute. reflexivity.
Defined.

Lemma get_set_answers_sound_witness :
  Cache.cache_enabled Mem.cache0 = true /\
  exists d, fst (redis_get Mem.key0 Mem.world_seeded) = Ok (Some d) /\
            d <> [] /\
            json_loads d
            = Some (VDict (Main.response_data Mem.text0 Mem.judgment_088
                             (py "llama2"))).
Proof.
  refine (proj1 (get_set_answers_sound Mem.cache0 Mem.key0 VNone _ None
                   (Mem.start Mem.world_seeded)) _ _).
  - vm_compute. reflexivity.
  - discriminate.
Defined.

(** ** [src/services.py] *)

Section ServiceMore.
Context {L : Lib} {W : Type} {E : Env W}.
Import Models.

Ltac unfold_service :=
  unfold Services.analyze_sentiment, Services.wait_for, Services.chain_ainvoke;
  unfold_monad; cbn [Services.completed Services.abandoned world trace].

(** The client on a reply the parser cannot read, within the deadline. *)
Lemma analyze_sentiment_unparseable
  (svc : Services.SentimentAnalysisService) (text raw : pystr) (secs : Q)
  (w : W) (s : State W) :
  llm_ainvoke text (world s) = ((Ok raw, secs), w) ->
  0 < Services.request_timeout svc ->
  (secs <= inject_Z (Services.request_timeout svc))%Q ->
  parse_json raw = None ->
  Services.analyze_sentiment svc text s =
  (Ok {| label := NEUTRAL; confidence := Fin 0;
         explanation := Some (py "Unable to determine sentiment") |},
   {| world := w; trace := trace s ++ [CallAnalyze text; LlmInvoke text] |}).
Proof.
  intros Hllm Hpos Hle Hp. apply Qle_bool_iff in Hle.
  assert (Hz : (Services.request_timeout svc <=? 0) = false) by lia.
  unfold_service. rewrite Hz, Hllm, Hp, Hle.
  now rewrite <- app_assoc.
Qed.



(** X4.  Whatever the model call does, [analyze_sentiment] ends in one of
    four ways: a judgment within the bounds; the timeout failure, with its
    fixed message; the failure ["Invalid response format from LLM"], whose
    details are the validation errors; or the failure ["Unexpected error
    during sentiment analysis"], whose details are the text of the
    exception.  No [OutputParserException], [ValidationError] or other
    exception of the chain leaves the client. *)
Theorem analyze_sentiment_exhaustive
  (svc : Services.SentimentAnalysisService) (text : pystr) (s : State W) :
  let outcome := fst (Services.analyze_sentiment svc text s) in
  (exists r, outcome = Ok r /\ confidence_in_range (confidence r) = true) \/
  outcome = Raise (TimeoutError (py "Sentiment analysis request timed out")) \/
  (exists errors,
     outcome = Raise (SentimentAnalysisError
                        (py "Invalid response format from LLM")
                        [(py "validation_errors",
                          VList (map verror_value errors))])) \/
  (exists exc,
     outcome = Raise (SentimentAnalysisError
                        (py "Unexpected error during sentiment analysis")
                        [(py "error", VStr (exn_str exc))])).
Proof.
  cbv zeta. unfold_service.
  destruct (Services.request_timeout svc <=? 0); [right; left; reflexivity|].
  destruct (llm_ainvoke text (world s)) as [[[raw|e] secs] w].
  - destruct (Qle_bool secs (inject_Z (Services.request_timeout svc))) eqn:Hq.
    + destruct (parse_json raw) as [v|]; rewrite Hq.
      * destruct (model_validate v) as [r|e] eqn:H.
        -- left. exists r. split; [reflexivity|].
           now apply model_validate_in_range in H.
        -- unfold model_validate in H.
           destruct (SentimentResult_validate v) as [es|]; [|discriminate].
           injection H as <-. right. right. left. exists es. reflexivity.
      * left. eexists. split; reflexivity.
    + destruct (parse_json raw) as [v|]; rewrite Hq; right; left; reflexivity.
  - destruct (Qle_bool secs (inject_Z (Services.request_timeout svc))) eqn:Hq;
      [|right; left; reflexivity].
    destruct e as [m|m|es|m d|m|m|m].
    + left. eexists. split; reflexivity.
    + right. left. reflexivity.
    + right. right. left. exists es. reflexivity.
    + right. right. right. exists (SentimentAnalysisError m d). reflexivity.
    + right. right. right. exists (UnicodeEncodeError m). reflexivity.
    + right. right. right. exists (TypeError m). reflexivity.
    + right. right. right. exists (OtherError m). reflexivity.
Qed.

(** X5.  A call of [analyze_sentiment] invokes the model at most once and
    sends nothing to Redis: the service keeps a reference to the cache and
    never uses it.  With a positive deadline the model is invoked exactly
    once, whatever the outcome (no retry after a failure).  With a deadline
    that is not positive it is not invoked at all: the call is cancelled
    before it starts, the world is untouched and the timeout failure is
    raised. *)
Theorem analyze_sentiment_one_model_call
  (svc : Services.SentimentAnalysisService) (text : pystr) (s : State W) :
  exists evs,
    trace (snd (Services.analyze_sentiment svc text s)) = trace s ++ evs /\
    filter is_redis_io evs = [] /\ filter is_cache_write evs = [] /\
    (0 < Services.request_timeout svc -> count is_llm evs = 1%nat) /\
    (Services.request_timeout svc <= 0 ->
     count is_llm evs = 0%nat /\
     world (snd (Services.analyze_sentiment svc text s)) = world s /\
     fst (Services.analyze_sentiment svc text s)
       = Raise (TimeoutError (py "Sentiment analysis request timed out"))).
Proof.
  destruct (Z_le_gt_dec (Services.request_timeout svc) 0) as [Hle|Hgt].
  - rewrite (analyze_sentiment_not_started svc text s Hle). cbn [fst snd trace world].
    exists [CallAnalyze text]. repeat split. lia.
  - assert (Hz : (Services.request_timeout svc <=? 0) = false) by lia.
    exists [CallAnalyze text; LlmInvoke text].
    split; [|repeat split; lia].
    unfold_service. rewrite Hz.
    destruct (llm_ainvoke text (world s)) as [[[raw|e] secs] w].
    + destruct (parse_json raw) as [v|]; destruct (Qle_bool secs _);
        try destruct (model_validate v) as [r'|[]];
        cbn [snd trace]; now rewrite <- ?app_assoc.
    + destruct (Qle_bool secs _); [destruct e|];
        cbn [snd trace]; now rewrite <- ?app_assoc.
Qed.

End ServiceMore.

(** ** [src/main.py]: the request pipeline *)

Lemma dict_get_app (k : pystr) (d e : dict) :
  dict_get k (d ++ e) =
  match dict_get k d with Some v => Some v | None => dict_get k e end.
Proof.
  induction d as [|[k' v] d IH]; cbn [app dict_get]; [reflexivity|].
  now destruct (str_eqb k k').
Qed.

Lemma dict_has_false (k : pystr) (d : dict) :
  dict_has k d = false -> dict_get k d = None.
Proof. unfold dict_has. now destruct (dict_get k d). Qed.

Section PipelineMore.
Context {L : Lib} {W : Type} {E : Env W}.
Import Models Main.

(** A truthy answer comes from a [GET]. *)
Lemma truthy_lookup_trace
  (c : Cache.RedisCache) (key : pystr) (v : value) (s s1 : State W) :
  Cache.get c key (snd (clock time_time s)) = (Ok v, s1) ->
  truthy v = true ->
  trace s1 = trace s ++ [CallCacheGet key; RedisGet key].
Proof.
  intros Hg Hv. rewrite clock_run in Hg. cbn [snd] in Hg.
  destruct (Cache.cache_enabled c) eqn:Hen.
  - rewrite (get_enabled c key _ Hen) in Hg. now injection Hg as _ <-.
  - rewrite (get_disabled c key _ Hen) in Hg. injection Hg as <- _.
    discriminate.
Qed.

(** X6.  A request served from the cache only reads: for every truthy
    answer of the lookup, the one command the whole request sends to Redis
    is the [GET].  No [set] is called and no [SETEX] sent, so a hit does not
    renew the time-to-live of the entry; and the model is not invoked. *)
Theorem hit_only_reads
  (st : Settings) (svc : Services.SentimentAnalysisService)
  (c : Cache.RedisCache) (text key : pystr) (v : value) (s s1 : State W) :
  generate_cache_key text = Ok key ->
  Cache.get c key (snd (clock time_time s)) = (Ok v, s1) ->
  truthy v = true ->
  trace (snd (analyze_sentiment st svc c text s))
  = trace s ++ [CallCacheGet key; RedisGet key].
Proof.
  intros Hk Hg Hv. rewrite (hit_trace st svc c text key v s s1 Hk Hg Hv).
  exact (truthy_lookup_trace c key v s s1 Hg Hv).
Qed.

(** X7.  A truthy answer of the lookup that is not a well-formed unit
    makes the request fail; the model is not asked instead.  A value that is
    not a dict raises [TypeError]; so does a dict with one of the keys
    [cached], [processing_time], [timestamp], which the handler passes
    itself; a dict without those keys that lacks [text] or [sentiment], or
    whose [sentiment] does not validate, raises [ValidationError]. *)
Theorem hit_malformed_entry
  (st : Settings) (svc : Services.SentimentAnalysisService)
  (c : Cache.RedisCache) (text key : pystr) (v : value) (s s1 : State W) :
  generate_cache_key text = Ok key ->
  Cache.get c key (snd (clock time_time s)) = (Ok v, s1) ->
  truthy v = true ->
  let outcome := fst (analyze_sentiment st svc c text s) in
  (match v with VDict _ => False | _ => True end ->
   exists m, outcome = Raise (TypeError m)) /\
  (forall d, v = VDict d ->
     dict_has (py "cached") d || dict_has (py "processing_time") d
       || dict_has (py "timestamp") d = true ->
     exists m, outcome = Raise (TypeError m)) /\
  (forall d, v = VDict d ->
     dict_has (py "cached") d || dict_has (py "processing_time") d
       || dict_has (py "timestamp") d = false ->
     dict_get (py "text") d = None \/ dict_get (py "sentiment") d = None \/
     (exists obj errors, dict_get (py "sentiment") d = Some obj /\
        model_validate obj = Raise (ValidationError errors)) ->
     exists errors, outcome = Raise (ValidationError errors)).
Proof.
  intros Hk Hg Hv outcome. subst outcome.
  rewrite (analyze_sentiment_lookup _ _ _ _ _ _ _ _ Hk Hg), Hv.
  split; [|split].
  - destruct v; try (intros _; eexists; reflexivity). contradiction.
  - intros d -> Hr.
    rewrite (bind_ok _ _ _ _ _ (assembly_run _ _ _)).
    cbn [existsb fst]. rewrite orb_false_r, orb_assoc, Hr.
    eexists. reflexivity.
  - intros d -> Hr Hbad.
    rewrite (bind_ok _ _ _ _ _ (assembly_run _ _ _)).
    cbn [existsb fst]. rewrite orb_false_r, orb_assoc, Hr.
    unfold lift. cbn [fst]. unfold AnalysisResponse_init.
    rewrite !dict_get_app.
    destruct Hbad as [Ht | [Hs | (obj & errors & Hs & Hm)]].
    + rewrite Ht.
      change (dict_get (py "text") _) with (@None value).
      cbn [validate_str]. unfold err. eauto.
    + rewrite Hs.
      change (dict_get (py "sentiment") _) with (@None value).
      unfold err.
      destruct (validate_str "text" _); eauto.
    + rewrite Hs. unfold model_validate in Hm.
      destruct (SentimentResult_validate obj) as [es|]; [|discriminate].
      destruct (validate_str "text" _); eauto.
Qed.

End PipelineMore.

Section PipelineHits.
Context {L : Lib} {W : Type} {E : Env W}.
Import Models Main.

(** X8.  A hit on any well-formed dict.  When the lookup answers a dict
    with a [text] string, a [sentiment] that validates and none of the three
    keys the handler passes itself, the request succeeds with [cached =
    true], the stored text and judgment, and the stored [model_used] -- or
    [None] when the dict has none.  Other keys of the dict are ignored.  The
    elapsed time and the timestamp are those of this request: the clock read
    after the lookup minus the clock read at the start, and the [now] read
    after it. *)
Theorem hit_any_wellformed_dict
  (st : Settings) (svc : Services.SentimentAnalysisService)
  (c : Cache.RedisCache) (text key t : pystr) (d : dict) (obj : value)
  (r : SentimentResult) (m : option pystr) (s s1 : State W) :
  generate_cache_key text = Ok key ->
  Cache.get c key (snd (clock time_time s)) = (Ok (VDict d), s1) ->
  dict_has (py "cached") d = false ->
  dict_has (py "processing_time") d = false ->
  dict_has (py "timestamp") d = false ->
  dict_get (py "text") d = Some (VStr t) ->
  dict_get (py "sentiment") d = Some obj ->
  model_validate obj = Ok r ->
  match dict_get (py "model_used") d with
  | None | Some VNone => m = None
  | Some (VStr x) => m = Some x
  | Some _ => False
  end ->
  analyze_sentiment st svc c text s =
  (Ok {| Models.text := t; sentiment := r; cached := true;
         processing_time :=
           Some (Fin (fst (time_time (world s1)) - fst (time_time (world s))));
         model_used := m;
         timestamp := fst (datetime_now (snd (time_time (world s1)))) |},
   {| world := snd (datetime_now (snd (time_time (world s1))));
      trace := trace s1 |}).
Proof.
  intros Hk Hg Hc Hp Hts Ht Hs Hv Hm.
  rewrite (analyze_sentiment_lookup _ _ _ _ _ _ _ _ Hk Hg).
  assert (Htr : truthy (VDict d) = true).
  { destruct d; [discriminate Ht|reflexivity]. }
  rewrite Htr. rewrite (bind_ok _ _ _ _ _ (assembly_run _ _ _)).
  cbn [existsb fst]. rewrite Hc, Hp, Hts. cbn [orb].
  unfold lift. f_equal. unfold AnalysisResponse_init.
  rewrite !dict_get_app, Ht, Hs.
  rewrite (dict_has_false _ _ Hc), (dict_has_false _ _ Hp),
    (dict_has_false _ _ Hts).
  change (dict_get (py "cached") _) with (Some (VBool true)).
  change (dict_get (py "processing_time") [_; _; _])
    with (Some (VNum (Fin (fst (time_time (world s1))
                           - fst (time_time (world s)))))).
  change (dict_get (py "timestamp") [_; _; _])
    with (Some (VDatetime (fst (datetime_now (snd (time_time (world s1))))))).
  change (dict_get (py "model_used") [_; _; _]) with (@None value).
  unfold model_validate in Hv.
  destruct (SentimentResult_validate obj) as [es|r']; [discriminate|].
  injection Hv as ->. cbn [validate_str validate_bool validate_opt_float
                             lax_float validate_datetime].
  destruct (dict_get (py "model_used") d) as [[]|]; try contradiction;
    subst m; reflexivity.
Qed.

(** X9.  The fallback judgment is cached like any other.  On a miss, when
    the deadline is positive and the model answers within it something the
    parser cannot read,
    the request succeeds with the neutral judgment and [cached = false], and
    the store's [set] is called with a unit that holds that judgment: until
    it expires, the same text is answered from the cache with the fallback,
    without asking the model again. *)
Theorem fallback_is_cached
  (st : Settings) (svc : Services.SentimentAnalysisService)
  (c : Cache.RedisCache) (text key raw : pystr) (v : value) (secs : Q)
  (w : W) (s s1 : State W) :
  generate_cache_key text = Ok key ->
  Cache.get c key (snd (clock time_time s)) = (Ok v, s1) ->
  truthy v = false ->
  llm_ainvoke text (world s1) = ((Ok raw, secs), w) ->
  0 < Services.request_timeout svc ->
  (secs <= inject_Z (Services.request_timeout svc))%Q ->
  parse_json raw = None ->
  let neutral := {| label := NEUTRAL; confidence := Fin 0;
                    explanation := Some (py "Unable to determine sentiment") |} in
  exists o s',
    analyze_sentiment st svc c text s = (Ok o, s') /\
    sentiment o = neutral /\ cached o = false /\
    In (CallCacheSet key (VDict (response_data text neutral (ollama_model st))))
       (trace s') /\
    (Cache.cache_enabled c = true ->
     In (RedisSetex key (Cache.ttl c)
           (json_dumps (VDict (response_data text neutral (ollama_model st)))))
        (trace s')).
Proof.
  intros Hk Hg Hv Hllm Hpos Hle Hp neutral.
  pose proof (analyze_sentiment_unparseable svc text raw secs w s1 Hllm Hpos
                Hle Hp) as Hs. fold neutral in Hs.
  destruct (miss_outcome st svc c text key v neutral s s1 _ Hk Hg Hv Hs)
    as (o & w' & Ho & Hc & Hsent & _).
  eexists o, _. split; [exact Ho|]. split; [exact Hsent|].
  split; [exact Hc|]. cbn [trace]. split.
  - destruct (set_returns c key
                (VDict (response_data text neutral (ollama_model st))) None
                {| world := w;
                   trace := trace s1 ++ [CallAnalyze text; LlmInvoke text] |})
      as (b & w2 & evs & Hset & Hevs).
    rewrite Hset. cbn [snd trace]. apply in_or_app. right.
    destruct Hevs as [-> | ->]; left; reflexivity.
  - intros Hen. rewrite (set_enabled c key _ None _ Hen). cbn [snd trace].
    apply in_or_app. right. right. left. reflexivity.
Qed.

(** X10.  A cache that cannot be read does not break the request.  When
    caching is disabled or the [GET] raises, the request goes to the backend
    client and ends as the client ends: with the client's judgment and
    [cached = false], whatever the [SETEX] that follows does, or with the
    client's exception. *)
Theorem unreadable_cache_is_a_miss
  (st : Settings) (svc : Services.SentimentAnalysisService)
  (c : Cache.RedisCache) (text key : pystr) (s : State W) :
  generate_cache_key text = Ok key ->
  Cache.cache_enabled c = false \/
  (exists e, fst (redis_get key (snd (time_time (world s)))) = Raise e) ->
  let s1 := snd (Cache.get c key (snd (clock time_time s))) in
  match Services.analyze_sentiment svc text s1 with
  | (Ok r, s2) =>
      exists o s',
        analyze_sentiment st svc c text s = (Ok o, s') /\
        cached o = false /\ sentiment o = r /\
        model_used o = Some (ollama_model st)
  | (Raise e, s2) => analyze_sentiment st svc c text s = (Raise e, s2)
  end.
Proof.
  intros Hk Hbad s1.
  assert (Hg : Cache.get c key (snd (clock time_time s)) = (Ok VNone, s1)).
  { unfold s1. rewrite clock_run. cbn [snd].
    destruct (Cache.cache_enabled c) eqn:Hen.
    - destruct Hbad as [Hf | [e He]]; [discriminate|].
      rewrite (get_enabled c key _ Hen). cbn [world fst snd]. now rewrite He.
    - now rewrite (get_disabled c key _ Hen). }
  destruct (Services.analyze_sentiment svc text s1) as [[r|e] s2] eqn:Hs.
  - destruct (miss_outcome st svc c text key VNone r s s1 s2 Hk Hg eq_refl Hs)
      as (o & w & Ho & Hc & Hsent & Hm & _).
    eauto 8.
  - rewrite (analyze_sentiment_lookup _ _ _ _ _ _ _ _ Hk Hg). cbn [truthy].
    now rewrite (bind_raise _ _ _ _ _ Hs).
Qed.

(** X11.  The key does not depend on the model.  After a request that
    missed and succeeded under some settings, a request for the same text
    under any other settings and any other service (another model, another
    deadline) that finds the stored data is served from the cache: it returns
    the judgment and the model identifier of the first request, and its own
    service is not called. *)
Theorem hit_ignores_current_model
  (st1 st2 : Settings) (svc1 svc2 : Services.SentimentAnalysisService)
  (c : Cache.RedisCache) (text key : pystr) (v : value)
  (o1 : AnalysisResponse) (s sa s1 : State W) :
  generate_cache_key text = Ok key ->
  Cache.get c key (snd (clock time_time s)) = (Ok v, sa) ->
  truthy v = false ->
  analyze_sentiment st1 svc1 c text s = (Ok o1, s1) ->
  let entry := VDict (response_data text (sentiment o1) (ollama_model st1)) in
  Cache.cache_enabled c = true ->
  fst (redis_get key (snd (time_time (world s1)))) = Ok (Some (json_dumps entry)) ->
  str_truthy (json_dumps entry) = true ->
  json_loads (json_dumps entry) = Some entry ->
  exists o2 s2,
    analyze_sentiment st2 svc2 c text s1 = (Ok o2, s2) /\
    sentiment o2 = sentiment o1 /\ cached o2 = true /\
    model_used o2 = Some (ollama_model st1) /\
    trace s2 = trace s1 ++ [CallCacheGet key; RedisGet key].
Proof.
  intros Hk Hg Hv H1 entry Hen Hget Hne Hrt.
  destruct (Services.analyze_sentiment svc1 text sa) as [[r|e] s2'] eqn:Hs.
  2:{ rewrite (analyze_sentiment_lookup _ _ _ _ _ _ _ _ Hk Hg), Hv in H1.
      rewrite (bind_raise _ _ _ _ _ Hs) in H1. discriminate. }
  destruct (miss_outcome st1 svc1 c text key v r s sa s2' Hk Hg Hv Hs)
    as (o & w & Ho & Hc & Hsent & Hm & _).
  rewrite Ho in H1. injection H1 as -> _.
  assert (Hr : confidence_in_range (confidence r) = true).
  { pose proof (analyze_sentiment_outcomes svc1 text sa) as H.
    now rewrite Hs in H. }
  assert (Hg2 : exists sb,
             Cache.get c key (snd (clock time_time s1)) = (Ok entry, sb)).
  { rewrite clock_run. cbn [snd]. rewrite (get_enabled c key _ Hen).
    cbn [world]. rewrite Hget. cbn [Cache.get_answer]. rewrite Hne, Hrt. eauto. }
  destruct Hg2 as [sb Hg2]. unfold entry in Hg2. rewrite Hsent in Hg2.
  destruct (hit_outcome st2 svc2 c text key text (ollama_model st1) r s1 sb
              Hk Hg2 Hr) as (o2 & s2 & Ho2 & Hc2 & Hs2 & Hm2 & _ & Ht2).
  exists o2, s2. rewrite Hsent. repeat split; try assumption.
  rewrite Ht2. exact (truthy_lookup_trace c key _ s1 sb Hg2 eq_refl).
Qed.

End PipelineHits.

(** ** [src/main.py]: handlers and endpoints *)

(** X12.  The error envelope.  The [code] in the body is the status of the
    response.  A [TimeoutError] is answered 504 with ["Analysis timeout"] and
    its message; a [SentimentAnalysisError] is answered 500 with ["Sentiment
    analysis failed"] and its message only -- its details dict is logged and
    does not reach the client, so two failures with the same message get the
    same response; every other exception is answered 500 with ["Internal
    server error"]. *)
Theorem error_envelope (exc : exn) :
  dict_get (py "code") (Http.content (Http.exception_container exc))
    = Some (VNum (Fin (inject_Z (Http.status_code (Http.exception_container exc))))) /\
  Http.status_code (Http.exception_container exc) = Main.status_code exc /\
  dict_get (py "error") (Http.content (Http.exception_container exc))
    = Some (VStr (Main.error_title exc)) /\
  (forall m, exc = TimeoutError m ->
     Http.exception_container exc =
     {| Http.status_code := 504;
        Http.content := Http.ErrorResponse (py "Analysis timeout") m 504 |}) /\
  (forall m d d', exc = SentimentAnalysisError m d ->
     Http.exception_container exc =
       {| Http.status_code := 500;
          Http.content :=
            Http.ErrorResponse (py "Sentiment analysis failed") m 500 |} /\
     Http.exception_container (SentimentAnalysisError m d')
       = Http.exception_container exc) /\
  (Http.status_code (Http.exception_container exc) = 504 <->
   exists m, exc = TimeoutError m).
Proof.
  repeat split.
  - destruct exc; reflexivity.
  - destruct exc; reflexivity.
  - destruct exc; reflexivity.
  - intros m ->. reflexivity.
  - subst exc. reflexivity.
  - subst exc. reflexivity.
  - destruct exc; cbn; intros H; try discriminate H. eauto.
  - intros [m ->]. reflexivity.
Qed.

Lemma error_envelope_witness :
  Http.exception_container
    (SentimentAnalysisError (py "LLM is down") [(py "code", VStr (py "LLM_FAIL"))])
  = {| Http.status_code := 500;
       Http.content :=
         Http.ErrorResponse (py "Sentiment analysis failed") (py "LLM is down") 500 |}.
Proof.
  exact (proj1 (proj1 (proj2 (proj2 (proj2 (proj2
           (error_envelope
              (SentimentAnalysisError (py "LLM is down")
                 [(py "code", VStr (py "LLM_FAIL"))]))))))
           (py "LLM is down") [(py "code", VStr (py "LLM_FAIL"))] [] eq_refl)).
Defined.

Section Endpoints.
Context {L : Lib} {W : Type} {E : Env W}.
Variable isoformat : Q -> pystr.




(** X14.  [GET /health] never raises and sends one [PING].  It answers 200
    with status and cache ["healthy"] when the [PING] does not raise, and
    503 with ["degraded"] and ["unhealthy"] when it does -- also when caching
    is disabled, which the probe does not look at. *)
Theorem health_endpoint (c : Cache.RedisCache) (s : State W) :
  exists r,
    fst (Http.health_check isoformat c s) = Ok r /\
    trace (snd (Http.health_check isoformat c s)) = trace s ++ [RedisPing] /\
    ((exists u, fst (redis_ping (world s)) = Ok u) ->
     Http.status_code r = 200 /\
     dict_get (py "status") (Http.content r) = Some (VStr (py "healthy")) /\
     dict_get (py "cache") (Http.content r) = Some (VStr (py "healthy"))) /\
    ((exists e, fst (redis_ping (world s)) = Raise e) ->
     Http.status_code r = 503 /\
     dict_get (py "status") (Http.content r) = Some (VStr (py "degraded")) /\
     dict_get (py "cache") (Http.content r) = Some (VStr (py "unhealthy"))).
Proof.
  unfold Http.health_check.
  rewrite (bind_ok _ _ _ _ _ (health_check_run c s)).
  rewrite (bind_ok _ _ _ _ _ (clock_run _ _)). unfold ret. cbn [fst snd trace].
  eexists. split; [reflexivity|]. split; [reflexivity|].
  cbn [Http.status_code Http.content].
  split; intros [x Hx]; rewrite Hx; repeat split.
Qed.

(** X15.  [POST /cache/clear] sends one [FLUSHDB], whether caching is
    enabled or not.  It returns the acknowledgement when the command does
    not raise and raises [HTTPException] with status 500 and ["Failed to
    clear cache"] when it does; nothing else leaves the endpoint. *)
Theorem clear_endpoint (c : Cache.RedisCache) (s : State W) :
  trace (snd (Http.clear_cache c s)) = trace s ++ [RedisFlushdb] /\
  ((exists u, fst (redis_flushdb (world s)) = Ok u) ->
   fst (Http.clear_cache c s)
   = Ok (Http.Return [(py "message", VStr (py "Cache cleared successfully"))])) /\
  ((exists e, fst (redis_flushdb (world s)) = Raise e) ->
   fst (Http.clear_cache c s)
   = Ok (Http.HTTPException 500 (py "Failed to clear cache"))).
Proof.
  unfold Http.clear_cache.
  rewrite (bind_ok _ _ _ _ _ (clear_cache_run c s)).
  split; [|split].
  - now destruct (fst (redis_flushdb (world s))).
  - intros [u Hu]. now rewrite Hu.
  - intros [e He]. now rewrite He.
Qed.

(** X16.  Startup.  When the clients are built, [lifespan] sends one
    [PING] and completes whether the [PING] raises or not: an unreachable
    Redis is logged, the application starts all the same.  The cache it
    installs has caching enabled and the configured time-to-live; the
    service has the configured address, model and deadline.  When building
    a client raises, nothing is sent and the function exits with ["Startup
    failed: "] followed by the text of the exception. *)
Theorem lifespan_startup (cfg : Config.Settings) (s : State W) :
  (exists app,
     Http.lifespan cfg (Ok tt) s =
       (Ok (inr app),
        {| world := snd (redis_ping (world s));
           trace := trace s ++ [RedisPing] |}) /\
     Cache.cache_enabled (Http.redis_cache app) = true /\
     Cache.ttl (Http.redis_cache app) = Config.redis_ttl (Config.redis cfg) /\
     Services.ollama_model (Http.sentiment_service app)
       = Main.ollama_model (Config.pipeline cfg) /\
     Services.request_timeout (Http.sentiment_service app)
       = Config.request_timeout (Config.ollama cfg) /\
     Services.cache (Http.sentiment_service app) = Http.redis_cache app) /\
  (forall exc,
     Http.lifespan cfg (Raise exc) s
     = (Ok (inl (py "Startup failed: " ++ exn_str exc)), s)).
Proof.
  split.
  - eexists. split.
    + unfold Http.lifespan, try_except, lift.
      unfold bind at 1.
      rewrite (bind_ok _ _ _ _ _ (health_check_run _ s)). reflexivity.
    + repeat split.
  - intros exc. reflexivity.
Qed.

End Endpoints.

(** ** [src/main.py]: the cache key; [src/models.py]: the judgment *)

Lemma bytes_le_range (k : nat) (n : Z) :
  Forall (fun b => 0 <= b < 256) (Md5.bytes_le k n).
Proof.
  unfold Md5.bytes_le. apply Forall_forall. intros b Hb.
  apply in_map_iff in Hb as (i & <- & _).
  change 255 with (Z.ones 8). rewrite Z.land_ones by lia.
  apply Z.mod_pos_bound. lia.
Qed.

Lemma digest_range (msg : list Z) :
  Forall (fun b => 0 <= b < 256) (Md5.digest msg).
Proof.
  unfold Md5.digest.
  destruct (Md5.blocks _ Md5.init (Md5.pad msg)) as [[[a b] c] d].
  repeat (apply Forall_app; split); apply bytes_le_range.
Qed.

Lemma hex_digit_range (n : Z) :
  0 <= n < 16 ->
  48 <= Md5.hex_digit n <= 57 \/ 97 <= Md5.hex_digit n <= 102.
Proof. unfold Md5.hex_digit. destruct (n <? 10) eqn:H; lia. Qed.

(** X17.  Every cache key is made of 32 lower-case hexadecimal digits
    ([0-9a-f]), whatever the text: no character of the text, and nothing
    outside ASCII, ever appears in a key sent to Redis. *)
Theorem cache_key_is_lowercase_hex (text key : pystr) :
  Main.generate_cache_key text = Ok key ->
  List.length key = 32%nat /\
  Forall (fun ch => 48 <= ch <= 57 \/ 97 <= ch <= 102) key.
Proof.
  unfold Main.generate_cache_key.
  destruct (encode_utf8 text) as [bytes|]; [|discriminate].
  intros H. injection H as <-. split; [apply hexdigest_length|].
  unfold Md5.hexdigest. pose proof (digest_range bytes) as Hr.
  induction Hr as [|b l Hb _ IH]; cbn [flat_map app]; [constructor|].
  constructor; [|constructor; [|exact IH]]; apply hex_digit_range.
  - rewrite Z.shiftr_div_pow2 by lia. change (2 ^ 4) with 16. dlia.
  - change 15 with (Z.ones 4). rewrite Z.land_ones by lia.
    apply Z.mod_pos_bound. lia.
Qed.

Lemma cache_key_is_lowercase_hex_witness :
  List.length Mem.key0 = 32%nat /\
  Forall (fun ch => 48 <= ch <= 57 \/ 97 <= ch <= 102) Mem.key0.
Proof.
  apply (cache_key_is_lowercase_hex Mem.text0 Mem.key0).
  vm_compute. reflexivity.
Defined.

(** X18.  [model_dump] and validation are inverse on the judgments within
    the bounds: dumping such a judgment and validating the dict gives the
    judgment back, which is what lets a cached unit be read again.  A
    judgment outside the bounds does not survive: its dump is rejected.  A
    label is accepted exactly when it is the value of a member, letter for
    letter. *)
Theorem model_dump_validate_round_trip (L : Lib) (r : Models.SentimentResult) :
  (Models.confidence_in_range (Models.confidence r) = true ->
   Models.model_validate (Models.model_dump r) = Ok r) /\
  (Models.confidence_in_range (Models.confidence r) = false ->
   exists errors,
     Models.model_validate (Models.model_dump r) = Raise (ValidationError errors)) /\
  (forall s l, Models.label_of_value s = Some l <-> s = Models.label_value l).
Proof.
  split; [|split].
  - intros H. unfold Models.model_validate.
    now rewrite (validate_model_dump r H).
  - intros H. unfold Models.model_validate, Models.model_dump,
      Models.SentimentResult_validate, Models.SentimentResult_fields.
    change (dict_get (py "confidence") _)
      with (Some (VNum (Models.confidence r))).
    destruct (validate_confidence_out_of_range
                (VNum (Models.confidence r)) (Models.confidence r) eq_refl H)
      as [e ->].
    destruct (Models.validate_label _); eauto.
  - intros s l. split.
    + apply label_of_value_inv.
    + intros ->. apply label_of_value_label_value.
Qed.

Lemma model_dump_validate_round_trip_witness :
  Models.model_validate (Models.model_dump Mem.judgment_095) = Ok Mem.judgment_095.
Proof.
  exact (proj1 (model_dump_validate_round_trip Mem.lib Mem.judgment_095) eq_refl).
Defined.

(** ** The further properties at the fixtures *)

Lemma delete_health_clear_never_raise_witness :
  exists b,
    fst (Cache.delete Mem.cache0 Mem.key0 (Mem.start Mem.world_seeded)) = Ok b /\
    b = true.
Proof.
  destruct (proj1 (delete_health_clear_never_raise Mem.cache0 Mem.key0
                     (Mem.start Mem.world_seeded))) as (b & Hb & Hiff).
  exists b. split; [exact Hb|]. apply (proj2 Hiff).
  exists 1. split; [reflexivity|discriminate].
Defined.

Lemma hit_only_reads_witness :
  trace (snd (Main.analyze_sentiment Mem.settings0 Mem.service0 Mem.cache0
                Mem.text0 (Mem.start Mem.world_seeded)))
  = [] ++ [CallCacheGet Mem.key0; RedisGet Mem.key0].
Proof.
  pose (g := Cache.get Mem.cache0 Mem.key0
               (snd (clock time_time (Mem.start Mem.world_seeded)))).
  assert (Hk : Main.generate_cache_key Mem.text0 = Ok Mem.key0)
    by (vm_compute; reflexivity).
  assert (Hg : g = (Ok (VDict (Main.response_data Mem.text0 Mem.judgment_088
                                 (py "llama2"))), snd g))
    by (vm_compute; reflexivity).
  exact (hit_only_reads Mem.settings0 Mem.service0 Mem.cache0 Mem.text0
           Mem.key0 _ (Mem.start Mem.world_seeded) _ Hk Hg eq_refl).
Defined.

Lemma hit_malformed_entry_witness :
  exists m,
    fst (Main.analyze_sentiment (L := Fixtures.odd_lib) Mem.settings0
           Mem.service0 Mem.cache0 Mem.text0
           (Mem.start (Fixtures.world_holding (py "[1]"))))
    = Raise (TypeError m).
Proof.
  pose (s0 := Mem.start (Fixtures.world_holding (py "[1]"))).
  pose (g := Cache.get (L := Fixtures.odd_lib) Mem.cache0 Mem.key0
               (snd (clock time_time s0))).
  assert (Hk : Main.generate_cache_key Mem.text0 = Ok Mem.key0)
    by (vm_compute; reflexivity).
  assert (Hg : g = (Ok (VList [VNum (Fin 1)]), snd g))
    by (vm_compute; reflexivity).
  exact (proj1 (hit_malformed_entry (L := Fixtures.odd_lib) Mem.settings0
                  Mem.service0 Mem.cache0 Mem.text0 Mem.key0 _ s0 _
                  Hk Hg eq_refl) I).
Defined.

Lemma hit_any_wellformed_dict_witness :
  exists o s',
    Main.analyze_sentiment (L := Fixtures.odd_lib) Mem.settings0 Mem.service0
      Mem.cache0 Mem.text0
      (Mem.start (Fixtures.world_holding
                    (py "{'text': 'x', 'sentiment': {...}, 'source': 'import'}")))
    = (Ok o, s') /\
    Models.cached o = true /\ Models.text o = py "x" /\
    Models.sentiment o = Mem.judgment_088 /\ Models.model_used o = None.
Proof.
  pose (s0 := Mem.start (Fixtures.world_holding
                 (py "{'text': 'x', 'sentiment': {...}, 'source': 'import'}"))).
  pose (d := [ (py "text", VStr (py "x"));
               (py "sentiment", Models.model_dump Mem.judgment_088);
               (py "source", VStr (py "import")) ]).
  pose (g := Cache.get (L := Fixtures.odd_lib) Mem.cache0 Mem.key0
               (snd (clock time_time s0))).
  assert (Hk : Main.generate_cache_key Mem.text0 = Ok Mem.key0)
    by (vm_compute; reflexivity).
  assert (Hg : g = (Ok (VDict d), snd g)) by (vm_compute; reflexivity).
  eexists _, _. split.
  - exact (hit_any_wellformed_dict (L := Fixtures.odd_lib) Mem.settings0
             Mem.service0 Mem.cache0 Mem.text0 Mem.key0 (py "x") d
             (Models.model_dump Mem.judgment_088) Mem.judgment_088 None
             s0 (snd g) Hk Hg eq_refl eq_refl eq_refl eq_refl eq_refl eq_refl
             eq_refl).
  - repeat split.
Defined.

Lemma fallback_is_cached_witness :
  exists o s',
    Main.analyze_sentiment Mem.settings0 Mem.service0 Mem.cache0 Mem.text0
      (Mem.start (Mem.world_of (Ok (py "I think it is positive")) 2))
    = (Ok o, s') /\
    Models.label (Models.sentiment o) = Models.NEUTRAL /\
    Models.cached o = false.
Proof.
  pose (s0 := Mem.start (Mem.world_of (Ok (py "I think it is positive")) 2)).
  pose (g := Cache.get Mem.cache0 Mem.key0 (snd (clock time_time s0))).
  assert (Hk : Main.generate_cache_key Mem.text0 = Ok Mem.key0)
    by (vm_compute; reflexivity).
  assert (Hg : g = (Ok VNone, snd g)) by (vm_compute; reflexivity).
  assert (Hle : (2 <= inject_Z (Services.request_timeout Mem.service0))%Q)
    by (vm_compute; discriminate).
  destruct (fallback_is_cached Mem.settings0 Mem.service0 Mem.cache0 Mem.text0
              Mem.key0 (py "I think it is positive") VNone 2 _ s0 (snd g)
              Hk Hg eq_refl eq_refl eq_refl Hle eq_refl)
    as (o & s' & Ho & Hs & Hc & _).
  exists o, s'. split; [exact Ho|]. split; [|exact Hc]. now rewrite Hs.
Defined.

Lemma unreadable_cache_is_a_miss_witness :
  exists o s',
    Main.analyze_sentiment Mem.settings0 Mem.service0 Mem.cache_off Mem.text0
      (Mem.start Mem.world_fresh) = (Ok o, s') /\
    Models.cached o = false /\ Models.sentiment o = Mem.judgment_095 /\
    Models.model_used o = Some (py "llama3").
Proof.
  assert (Hk : Main.generate_cache_key Mem.text0 = Ok Mem.key0)
    by (vm_compute; reflexivity).
  pose proof (unreadable_cache_is_a_miss Mem.settings0 Mem.service0
                Mem.cache_off Mem.text0 Mem.key0 (Mem.start Mem.world_fresh)
                Hk (or_introl eq_refl)) as H.
  cbv zeta in H.
  assert (Ha : Services.analyze_sentiment Mem.service0 Mem.text0
                 (snd (Cache.get Mem.cache_off Mem.key0
                         (snd (clock time_time (Mem.start Mem.world_fresh)))))
               = (Ok Mem.judgment_095,
                  snd (Services.analyze_sentiment Mem.service0 Mem.text0
                         (snd (Cache.get Mem.cache_off Mem.key0
                                 (snd (clock time_time
                                         (Mem.start Mem.world_fresh))))))))
    by (vm_compute; reflexivity).
  rewrite Ha in H. exact H.
Defined.

Lemma hit_ignores_current_model_witness :
  exists o2 s2,
    Main.analyze_sentiment {| Main.ollama_model := py "mistral" |}
      {| Services.cache := Mem.cache0;
         Services.ollama_base_url := py "http://ollama:11434";
         Services.ollama_model := py "mistral";
         Services.request_timeout := 5 |}
      Mem.cache0 Mem.text0
      (snd (Main.analyze_sentiment Mem.settings0 Mem.service0 Mem.cache0
              Mem.text0 (Mem.start Mem.world_fresh)))
    = (Ok o2, s2) /\
    Models.sentiment o2 = Mem.judgment_095 /\ Models.cached o2 = true /\
    Models.model_used o2 = Some (py "llama3").
Proof.
  pose (s0 := Mem.start Mem.world_fresh).
  pose (g := Cache.get Mem.cache0 Mem.key0 (snd (clock time_time s0))).
  pose (a := Main.analyze_sentiment Mem.settings0 Mem.service0 Mem.cache0
               Mem.text0 s0).
  pose (o1 := {| Models.text := Mem.text0; Models.sentiment := Mem.judgment_095;
                 Models.cached := false;
                 Models.processing_time := Some (Fin 2);
                 Models.model_used := Some (py "llama3");
                 Models.timestamp := 102 |}).
  assert (Hk : Main.generate_cache_key Mem.text0 = Ok Mem.key0)
    by (vm_compute; reflexivity).
  assert (Hg : g = (Ok VNone, snd g)) by (vm_compute; reflexivity).
  assert (Ha : a = (Ok o1, snd a)) by (vm_compute; reflexivity).
  destruct (hit_ignores_current_model Mem.settings0
              {| Main.ollama_model := py "mistral" |} Mem.service0
              {| Services.cache := Mem.cache0;
                 Services.ollama_base_url := py "http://ollama:11434";
                 Services.ollama_model := py "mistral";
                 Services.request_timeout := 5 |}
              Mem.cache0 Mem.text0 Mem.key0 VNone o1 s0 (snd g) (snd a)
              Hk Hg eq_refl Ha eq_refl)
    as (o2 & s2 & H2 & Hs & Hc & Hm & _).
  - vm_compute. reflexivity.
  - vm_compute. reflexivity.
  - vm_compute. reflexivity.
  - exists o2, s2. repeat split; assumption.
Defined.


Lemma health_endpoint_witness :
  exists r,
    fst (Http.health_check Fixtures.isoformat Mem.cache_off
           (Mem.start Mem.world_down)) = Ok r /\
    Http.status_code r = 503.
Proof.
  destruct (health_endpoint Fixtures.isoformat Mem.cache_off
              (Mem.start Mem.world_down)) as (r & Hr & _ & _ & Hdown).
  exists r. split; [exact Hr|].
  exact (proj1 (Hdown (ex_intro _ _ eq_refl))).
Defined.

Lemma clear_endpoint_witness :
  fst (Http.clear_cache Mem.cache0 (Mem.start Mem.world_down))
  = Ok (Http.HTTPException 500 (py "Failed to clear cache")).
Proof.
  apply (proj2 (proj2 (clear_endpoint Mem.cache0 (Mem.start Mem.world_down)))).
  eexists. reflexivity.
Defined.

Lemma lifespan_startup_witness :
  exists app s',
    Http.lifespan Config.defaults (Ok tt) (Mem.start Mem.world_down)
      = (Ok (inr app), s') /\
    Cache.cache_enabled (Http.redis_cache app) = true /\
    Cache.ttl (Http.redis_cache app) = 3600.
Proof.
  destruct (proj1 (lifespan_startup Config.defaults (Mem.start Mem.world_down)))
    as (app & H & Hen & Httl & _).
  exists app. eexists. split; [exact H|]. split; [exact Hen|exact Httl].
Defined.

Lemma analyze_sentiment_one_model_call_witness :
  exists evs,
    trace (snd (Services.analyze_sentiment Mem.service0 Mem.text0
                  (Mem.start Mem.world_fresh))) = [] ++ evs /\
    count is_llm evs = 1%nat.
Proof.
  destruct (analyze_sentiment_one_model_call Mem.service0 Mem.text0
              (Mem.start Mem.world_fresh)) as (evs & Ht & _ & _ & Hpos & _).
  exists evs. split; [exact Ht|]. apply Hpos. reflexivity.
Defined.
